(** * Fossil-Viewer: the fossil data context

    A shallow embedding of [src/contexts/FossilCacheContext.tsx] (the
    provider behind [useFossilCache]) and of the page-count computation of
    the home page, with the properties of the search refiner, the
    pagination arithmetic, the keyed page cache and the error paths.

    Conventions of the model.
    - A JavaScript string is a [string]: each [ascii] is one UTF-16 code
      unit below 256 (the Latin-1 range), which is where [toLowerCase],
      [trim] and [JSON.stringify] are defined below.
    - A JavaScript number that the code uses as a page, a size, a count or
      an index is a [Z].
    - [T | null] and an optional property [x?: T] are [option T].
    - The React state of the provider is one record; a setter is a state
      update.  Every callback reads the state of the render it was created
      in; the dependency arrays of [useCallback] list exactly the state each
      callback reads, so a call made after a state change goes through a
      callback that sees the new state.  The model therefore lets every
      call read the state it starts in.
    - The Supabase client is an external collaborator: a query is the chain
      of builder calls that the code makes, and the backend is a parameter
      that answers a query. *)

From Stdlib Require Import ZArith QArith Qround Lia List Ascii String Sorted Permutation.
From stdpp Require Import base option strings gmap pretty.
Import ListNotations.

Local Open Scope string_scope.
Local Open Scope Z_scope.

(** ** JavaScript strings *)

Module Js.

(** [String.prototype.toLowerCase] on one code unit of the Latin-1 range:
    A-Z, and the accented capitals U+00C0..U+00DE without the
    multiplication sign U+00D7, move up by 32. *)
Definition lower_unit (c : ascii) : ascii :=
  let n := nat_of_ascii c in
  if ((65 <=? n) && (n <=? 90))%nat then ascii_of_nat (n + 32)
  else if ((192 <=? n) && (n <=? 222) && negb (n =? 215))%nat
       then ascii_of_nat (n + 32)
  else c.

Fixpoint toLowerCase (s : string) : string :=
  match s with
  | EmptyString => EmptyString
  | String c r => String (lower_unit c) (toLowerCase r)
  end.

(** White space and line terminators that [trim] strips, below 256:
    TAB, LF, VT, FF, CR, SPACE and NBSP. *)
Definition is_space (c : ascii) : bool :=
  let n := nat_of_ascii c in
  (((9 <=? n) && (n <=? 13)) || (n =? 32) || (n =? 160))%nat.

Fixpoint trimStart (s : string) : string :=
  match s with
  | EmptyString => EmptyString
  | String c r => if is_space c then trimStart r else s
  end.

(** Drops the trailing white space: a space is kept only when something
    that survives follows it. *)
Fixpoint trimEnd (s : string) : string :=
  match s with
  | EmptyString => EmptyString
  | String c r =>
      match trimEnd r with
      | EmptyString => if is_space c then EmptyString else String c EmptyString
      | r' => String c r'
      end
  end.

Definition trim (s : string) : string := trimEnd (trimStart s).

(** [s.includes(t)]: [t] occurs in [s] as a contiguous run. *)
Fixpoint includes (s t : string) : bool :=
  String.prefix t s ||
  match s with
  | EmptyString => false
  | String _ r => includes r t
  end.

(** Truthiness of a string value: the empty string is falsy. *)
Definition truthy (s : string) : bool :=
  match s with EmptyString => false | _ => true end.

(** Truthiness of an optional string: [undefined] and the empty string
    are falsy. *)
Definition truthy_opt (o : option string) : bool :=
  match o with Some s => truthy s | None => false end.

(** [Array.prototype.slice(start, end)] with its relative indices: a
    negative index counts from the end, and both are clamped to the
    array. *)
Definition rel_index (len k : Z) : Z :=
  if k <? 0 then Z.max (len + k) 0 else Z.min k len.

Definition slice {A} (l : list A) (start stop : Z) : list A :=
  let len := Z.of_nat (length l) in
  let k := rel_index len start in
  let final := rel_index len stop in
  firstn (Z.to_nat (Z.max (final - k) 0)) (skipn (Z.to_nat k) l).

(** [Math.ceil(a / b)] on integers, over the exact quotient. *)
Definition ceil_div (a b : Z) : Z := Qceiling (inject_Z a / inject_Z b).

(** A thrown value: an instance of [Error] with its message, or any other
    value (the payload is what the value would print as). *)
Inductive Thrown : Type :=
  | ErrorInstance (message : string)
  | OtherValue (payload : string).

(** *** [JSON.stringify] for strings and arrays of strings *)

Definition hex_digit (n : nat) : ascii :=
  if (n <? 10)%nat then ascii_of_nat (48 + n) else ascii_of_nat (87 + n).

(** [QuoteJSONString] on one code unit. *)
Definition json_escape_unit (c : ascii) : string :=
  let n := nat_of_ascii c in
  if (n =? 8)%nat then "\b"
  else if (n =? 9)%nat then "\t"
  else if (n =? 10)%nat then "\n"
  else if (n =? 12)%nat then "\f"
  else if (n =? 13)%nat then "\r"
  else if (n =? 34)%nat then String "\" (String (ascii_of_nat 34) EmptyString)
  else if (n =? 92)%nat then "\\"
  else if (n <? 32)%nat
       then "\u00" +:+ String (hex_digit (n / 16)) (String (hex_digit (n mod 16)) EmptyString)
  else String c EmptyString.

Fixpoint json_escape (s : string) : string :=
  match s with
  | EmptyString => EmptyString
  | String c r => json_escape_unit c +:+ json_escape r
  end.

Definition quote : string := String (ascii_of_nat 34) EmptyString.

Definition json_string (s : string) : string := quote +:+ json_escape s +:+ quote.

Fixpoint join (sep : string) (l : list string) : string :=
  match l with
  | [] => EmptyString
  | [x] => x
  | x :: r => x +:+ sep +:+ join sep r
  end.

Definition json_array (l : list string) : string :=
  "[" +:+ join "," (map json_string l) +:+ "]".

End Js.

(** ** Data model *)

Record Fossil : Type := mkFossil {
  id : string;
  user_id : string;
  species : option string;
  description : string;
  location : option string;
  discovery_date : option string;
  tags : option (list string);
  image_url : string;
  created_at : string;
  updated_at : string
}.

(** [SearchFilters]: every property is optional.  The filter form builds
    the object with its properties in the order of the interface, which is
    the order [JSON_stringify] prints them in.  The properties [species],
    [location] and [tags] carry the prefix [f_] to keep them apart from the
    fields of [Fossil]. *)
Record SearchFilters : Type := mkFilters {
  searchQuery : option string;
  f_species : option string;
  f_location : option string;
  f_tags : option (list string);
  dateFrom : option string;
  dateTo : option string
}.

(** The object literal without any property. *)
Definition no_filters : SearchFilters := mkFilters None None None None None None.

(** The value of a page-cache entry, and of a [fetchAllFossils] result. *)
Record PageResult : Type := mkPage {
  fossils : list Fossil;
  totalCount : Z
}.

(** [JSON.stringify(filters)]: [undefined] for [undefined], otherwise the
    object with the properties that are not [undefined]. *)
Definition json_property (key : string) (print : string) : string :=
  Js.json_string key +:+ ":" +:+ print.

Definition string_property (key : string) (v : option string) : list string :=
  match v with
  | Some x => [json_property key (Js.json_string x)]
  | None => []
  end.

Definition array_property (key : string) (v : option (list string)) : list string :=
  match v with
  | Some x => [json_property key (Js.json_array x)]
  | None => []
  end.

Definition JSON_stringify_object (f : SearchFilters) : string :=
  "{" +:+
  Js.join ","
    (string_property "searchQuery" (searchQuery f) ++
     string_property "species" (f_species f) ++
     string_property "location" (f_location f) ++
     array_property "tags" (f_tags f) ++
     string_property "dateFrom" (dateFrom f) ++
     string_property "dateTo" (dateTo f))
  +:+ "}".

Definition JSON_stringify (filters : option SearchFilters) : option string :=
  JSON_stringify_object <$> filters.

(** ** Pure helpers of the provider *)

(** The template literal prints an integer page in decimal. *)
Definition buildCacheKey (page : Z) (filters : option SearchFilters) : string :=
  match filters with
  | None => "page-" +:+ pretty page
  | Some f => "page-" +:+ pretty page +:+ "-" +:+ JSON_stringify_object f
  end.

Definition removeSearchQuery (filters : option SearchFilters) : option SearchFilters :=
  match filters with
  | None => None
  | Some f =>
      if negb (Js.truthy_opt (searchQuery f)) then Some f
      else Some (mkFilters None (f_species f) (f_location f) (f_tags f)
                           (dateFrom f) (dateTo f))
  end.

Definition default_message : string := "Failed to load fossils".

Definition getErrorMessage (err : Js.Thrown) : string :=
  match err with
  | Js.ErrorInstance m => m
  | Js.OtherValue _ => default_message
  end.

(** *** The query builder

    A query is the table and the [select] call it starts from, followed by
    the builder calls chained on it, oldest first. *)
Inductive Clause : Type :=
  | Eq (column value : string)
  | Ilike (column pattern : string)
  | Contains (column : string) (values : list string)
  | Gte (column value : string)
  | Lte (column value : string)
  | Order (column : string) (ascending : bool)
  | Range (from to : Z).

Record Query : Type := mkQuery {
  q_table : string;
  q_columns : string;
  q_count_head : bool;   (* [{ count: 'exact', head: true }] *)
  q_clauses : list Clause
}.

Definition chain (q : Query) (c : Clause) : Query :=
  mkQuery (q_table q) (q_columns q) (q_count_head q) (q_clauses q ++ [c]).

Definition select_all : Query := mkQuery "fossils" "*" false [].
Definition select_count : Query := mkQuery "fossils" "*" true [].

Definition when (b : bool) (c : Clause) (q : Query) : Query :=
  if b then chain q c else q.

Definition nonempty_tags (t : option (list string)) : bool :=
  match t with
  | Some (_ :: _) => true
  | _ => false
  end.

Definition applyFilters (query : Query) (filters : option SearchFilters) : Query :=
  match filters with
  | None => query
  | Some f =>
      let query := when (Js.truthy_opt (f_species f))
                     (Ilike "species" ("%" +:+ default "" (f_species f) +:+ "%")) query in
      let query := when (Js.truthy_opt (f_location f))
                     (Ilike "location" ("%" +:+ default "" (f_location f) +:+ "%")) query in
      let query := when (nonempty_tags (f_tags f))
                     (Contains "tags" (default [] (f_tags f))) query in
      let query := when (Js.truthy_opt (dateFrom f))
                     (Gte "discovery_date" (default "" (dateFrom f))) query in
      let query := when (Js.truthy_opt (dateTo f))
                     (Lte "discovery_date" (default "" (dateTo f))) query in
      query
  end.

(** *** The client-side search refiner *)

Definition opt_includes (field : option string) (searchTerm : string) : bool :=
  match field with
  | Some s => Js.includes (Js.toLowerCase s) searchTerm
  | None => false
  end.

Definition matchesSearch (searchTerm : string) (fossil : Fossil) : bool :=
  let matchesSpecies := opt_includes (species fossil) searchTerm in
  let matchesLocation := opt_includes (location fossil) searchTerm in
  let matchesDescription := Js.includes (Js.toLowerCase (description fossil)) searchTerm in
  let matchesTags :=
    match tags fossil with
    | Some ts => existsb (fun tag => Js.includes (Js.toLowerCase tag) searchTerm) ts
    | None => false
    end in
  matchesSpecies || matchesLocation || matchesDescription || matchesTags.

Definition filterFossils (fossils : list Fossil) (filters : option SearchFilters)
  : list Fossil :=
  match filters with
  | None => fossils
  | Some f =>
      match searchQuery f with
      | None => fossils
      | Some q =>
          if negb (Js.truthy q) then fossils
          else
            let searchTerm := Js.trim (Js.toLowerCase q) in
            if negb (Js.truthy searchTerm) then fossils
            else List.filter (matchesSearch searchTerm) fossils
      end
  end.

(** *** The page count of the home page *)

Definition FOSSILS_PER_PAGE : Z := 12.

(** The home page: [Math.ceil(totalCount / FOSSILS_PER_PAGE)]. *)
Definition totalPages (totalCount : Z) : Z := Js.ceil_div totalCount FOSSILS_PER_PAGE.

(** ** The provider state *)

Record State : Type := mkState {
  allFossils : list Fossil;
  userFossils : list Fossil;
  allFossilsCount : Z;
  loadingAll : bool;
  loadingUser : bool;
  errorAll : string;
  errorUser : string;
  allFossilsCache : gmap string PageResult;
  userFossilsCached : bool;
  userFossilsFilters : option SearchFilters
}.

(** The arguments of the [useState] calls. *)
Definition initial_state : State :=
  mkState [] [] 0 false false "" "" ∅ false None.

(** ** The backend collaborator *)

(** What a query resolves to: [{ data, count, error }]. *)
Record Response : Type := mkResponse {
  data : option (list Fossil);
  count : option Z;
  error : option Js.Thrown
}.

(** An awaited promise resolves with a value or rejects with a reason. *)
Inductive Settled (A : Type) : Type :=
  | Resolved (a : A)
  | Rejected (reason : Js.Thrown).
Arguments Resolved {A} a.
Arguments Rejected {A} reason.

(** [run_query] answers a query on the fossils table; [getUser] is
    [supabase.auth.getUser()], resolving to the id of the signed-in user or
    to no user. *)
Record Backend : Type := mkBackend {
  run_query : Query -> Settled Response;
  getUser : Settled (option string)
}.

Inductive RemoteCall : Type :=
  | CallQuery (q : Query)
  | CallGetUser.

(** ** Asynchronous computations over the provider

    A computation runs from a state and a log of the remote calls made so
    far; it completes normally with a value or abruptly with a thrown
    value. *)

Record World : Type := mkWorld {
  w_state : State;
  w_calls : list RemoteCall
}.

Inductive Completion (A : Type) : Type :=
  | Normal (a : A)
  | Abrupt (e : Js.Thrown).
Arguments Normal {A} a.
Arguments Abrupt {A} e.

Definition Async (A : Type) : Type := World -> Completion A * World.

#[global] Instance Async_ret : MRet Async := fun A a w => (Normal a, w).

#[global] Instance Async_bind : MBind Async := fun A B k m w =>
  match m w with
  | (Normal a, w') => k a w'
  | (Abrupt e, w') => (Abrupt e, w')
  end.

Definition throw {A} (e : Js.Thrown) : Async A := fun w => (Abrupt e, w).

Definition get_state : Async State := fun w => (Normal (w_state w), w).

Definition update (f : State -> State) : Async unit :=
  fun w => (Normal tt, mkWorld (f (w_state w)) (w_calls w)).

(** [await] on a promise of the backend, with the remote call logged. *)
Definition await {A} (call : RemoteCall) (p : Settled A) : Async A :=
  fun w =>
    let w' := mkWorld (w_state w) (w_calls w ++ [call]) in
    match p with
    | Resolved a => (Normal a, w')
    | Rejected e => (Abrupt e, w')
    end.

(** [try { body } catch (err) { handler } finally { fin }]. *)
Definition try_catch_finally {A} (body : Async A)
    (handler : Js.Thrown -> Async A) (fin : Async unit) : Async A :=
  fun w =>
    let '(r, w1) := match body w with
                    | (Normal a, w1) => (Normal a, w1)
                    | (Abrupt e, w1) => handler e w1
                    end in
    match fin w1 with
    | (Normal _, w2) => (r, w2)
    | (Abrupt e, w2) => (Abrupt e, w2)
    end.

(** *** The setters

    [with_x v s] is the state [s] with the field [x] replaced by [v]; the
    setter [setX] of the provider applies it to the current state. *)

Definition with_allFossils (v : list Fossil) (s : State) : State :=
  mkState v (userFossils s) (allFossilsCount s) (loadingAll s)
    (loadingUser s) (errorAll s) (errorUser s)
    (allFossilsCache s) (userFossilsCached s) (userFossilsFilters s).

Definition with_userFossils (v : list Fossil) (s : State) : State :=
  mkState (allFossils s) v (allFossilsCount s) (loadingAll s)
    (loadingUser s) (errorAll s) (errorUser s)
    (allFossilsCache s) (userFossilsCached s) (userFossilsFilters s).

Definition with_allFossilsCount (v : Z) (s : State) : State :=
  mkState (allFossils s) (userFossils s) v (loadingAll s)
    (loadingUser s) (errorAll s) (errorUser s)
    (allFossilsCache s) (userFossilsCached s) (userFossilsFilters s).

Definition with_loadingAll (v : bool) (s : State) : State :=
  mkState (allFossils s) (userFossils s) (allFossilsCount s) v
    (loadingUser s) (errorAll s) (errorUser s)
    (allFossilsCache s) (userFossilsCached s) (userFossilsFilters s).

Definition with_loadingUser (v : bool) (s : State) : State :=
  mkState (allFossils s) (userFossils s) (allFossilsCount s) (loadingAll s)
    v (errorAll s) (errorUser s)
    (allFossilsCache s) (userFossilsCached s) (userFossilsFilters s).

Definition with_errorAll (v : string) (s : State) : State :=
  mkState (allFossils s) (userFossils s) (allFossilsCount s) (loadingAll s)
    (loadingUser s) v (errorUser s)
    (allFossilsCache s) (userFossilsCached s) (userFossilsFilters s).

Definition with_errorUser (v : string) (s : State) : State :=
  mkState (allFossils s) (userFossils s) (allFossilsCount s) (loadingAll s)
    (loadingUser s) (errorAll s) v
    (allFossilsCache s) (userFossilsCached s) (userFossilsFilters s).

Definition with_allFossilsCache (v : gmap string PageResult) (s : State) : State :=
  mkState (allFossils s) (userFossils s) (allFossilsCount s) (loadingAll s)
    (loadingUser s) (errorAll s) (errorUser s)
    v (userFossilsCached s) (userFossilsFilters s).

Definition with_userFossilsCached (v : bool) (s : State) : State :=
  mkState (allFossils s) (userFossils s) (allFossilsCount s) (loadingAll s)
    (loadingUser s) (errorAll s) (errorUser s)
    (allFossilsCache s) v (userFossilsFilters s).

Definition with_userFossilsFilters (v : option SearchFilters) (s : State) : State :=
  mkState (allFossils s) (userFossils s) (allFossilsCount s) (loadingAll s)
    (loadingUser s) (errorAll s) (errorUser s)
    (allFossilsCache s) (userFossilsCached s) v.

Definition setAllFossils (v : list Fossil) : Async unit := update (with_allFossils v).

Definition setUserFossils (v : list Fossil) : Async unit := update (with_userFossils v).

Definition setAllFossilsCount (v : Z) : Async unit := update (with_allFossilsCount v).

Definition setLoadingAll (v : bool) : Async unit := update (with_loadingAll v).

Definition setLoadingUser (v : bool) : Async unit := update (with_loadingUser v).

Definition setErrorAll (v : string) : Async unit := update (with_errorAll v).

Definition setErrorUser (v : string) : Async unit := update (with_errorUser v).

(** The cache setter is called with an updater of the previous map. *)
Definition setAllFossilsCache
    (f : gmap string PageResult -> gmap string PageResult) : Async unit :=
  update (fun s => with_allFossilsCache (f (allFossilsCache s)) s).

Definition setUserFossilsCached (v : bool) : Async unit := update (with_userFossilsCached v).

Definition setUserFossilsFilters (v : option SearchFilters) : Async unit :=
  update (with_userFossilsFilters v).

(** ** The operations of the context *)

(** [filters?.searchQuery] as a condition. *)
Definition has_searchQuery (filters : option SearchFilters) : bool :=
  match filters with
  | Some f => Js.truthy_opt (searchQuery f)
  | None => false
  end.

(** The guard of the cache lookup: no filters, or every property falsy. *)
Definition cache_lookup_allowed (filters : option SearchFilters) : bool :=
  match filters with
  | None => true
  | Some f =>
      negb (Js.truthy_opt (searchQuery f)) && negb (Js.truthy_opt (f_species f)) &&
      negb (Js.truthy_opt (f_location f)) && negb (nonempty_tags (f_tags f)) &&
      negb (Js.truthy_opt (dateFrom f)) && negb (Js.truthy_opt (dateTo f))
  end.

(** The body of the [try] block of [fetchAllFossils]. *)
Definition fetchAllFossils_try (be : Backend) (cacheKey : string)
    (page pageSize : Z) (filters : option SearchFilters) : Async PageResult :=
  setLoadingAll true;;
  setErrorAll "";;
  let countQuery := select_count in
  let dataQuery := select_all in
  let filtersWithoutSearch := removeSearchQuery filters in
  let countQuery := applyFilters countQuery filtersWithoutSearch in
  let dataQuery := applyFilters dataQuery filtersWithoutSearch in
  r ← await (CallQuery countQuery) (run_query be countQuery);
  let totalCount := default 0 (count r) in
  let from := (page - 1) * pageSize in
  let to := from + pageSize - 1 in
  let dataQuery := chain (chain dataQuery (Order "created_at" false)) (Range from to) in
  r ← await (CallQuery dataQuery) (run_query be dataQuery);
  match error r with
  | Some fetchError => throw fetchError
  | None =>
      let fossils := default [] (data r) in
      fossils ←
        (if has_searchQuery filters then
           let allDataQuery := applyFilters select_all (removeSearchQuery filters) in
           let allDataQuery := chain allDataQuery (Order "created_at" false) in
           r ← await (CallQuery allDataQuery) (run_query be allDataQuery);
           let filteredAll := filterFossils (default [] (data r)) filters in
           setAllFossilsCount (Z.of_nat (length filteredAll));;
           let fossils := filterFossils fossils filters in
           let filteredFrom := (page - 1) * pageSize in
           let filteredTo := filteredFrom + pageSize in
           let fossils := Js.slice filteredAll filteredFrom filteredTo in
           mret fossils
         else
           setAllFossilsCount totalCount;;
           mret fossils);
      setAllFossils fossils;;
      let result_count :=
        if has_searchQuery filters then Z.of_nat (length fossils) else totalCount in
      (if negb (has_searchQuery filters) then
         setAllFossilsCache (fun prev => <[cacheKey := mkPage fossils result_count]> prev)
       else mret tt);;
      mret (mkPage fossils result_count)
  end.

Definition fetchAllFossils (be : Backend) (page pageSize : Z)
    (filters : option SearchFilters) : Async PageResult :=
  let cacheKey := buildCacheKey page filters in
  st ← get_state;
  match (if cache_lookup_allowed filters then allFossilsCache st !! cacheKey else None) with
  | Some cached =>
      setAllFossils (fossils cached);;
      setAllFossilsCount (totalCount cached);;
      mret cached
  | None =>
      try_catch_finally
        (fetchAllFossils_try be cacheKey page pageSize filters)
        (fun err => setErrorAll (getErrorMessage err);; throw err)
        (setLoadingAll false)
  end.

Definition must_be_logged_in : string := "You must be logged in to view your fossils".

(** The body of the [try] block of [fetchUserFossils]. *)
Definition fetchUserFossils_try (be : Backend) (filters : option SearchFilters)
  : Async unit :=
  setLoadingUser true;;
  setErrorUser "";;
  user ← await CallGetUser (getUser be);
  match user with
  | None =>
      setErrorUser must_be_logged_in;;
      setLoadingUser false;;
      mret tt
  | Some user_id =>
      let query := chain select_all (Eq "user_id" user_id) in
      let query := applyFilters query (removeSearchQuery filters) in
      let query := chain query (Order "created_at" false) in
      r ← await (CallQuery query) (run_query be query);
      match error r with
      | Some fetchError => throw fetchError
      | None =>
          let fossils := default [] (data r) in
          let fossils :=
            if has_searchQuery filters then filterFossils fossils filters else fossils in
          setUserFossils fossils;;
          setUserFossilsCached true;;
          setUserFossilsFilters filters
      end
  end.

Definition fetchUserFossils (be : Backend) (filters : option SearchFilters)
  : Async unit :=
  st ← get_state;
  let filtersMatch :=
    bool_decide (JSON_stringify filters = JSON_stringify (userFossilsFilters st)) in
  if userFossilsCached st && filtersMatch then mret tt
  else
    try_catch_finally
      (fetchUserFossils_try be filters)
      (fun err => setErrorUser (getErrorMessage err))
      (setLoadingUser false).

Definition clearCache : Async unit :=
  setAllFossils [];;
  setUserFossils [];;
  setAllFossilsCache (fun _ => ∅);;
  setUserFossilsCached false;;
  setErrorAll "";;
  setErrorUser "".

(** Running a computation from a state with an empty call log. *)
Definition run {A} (m : Async A) (s : State) : Completion A * World :=
  m (mkWorld s []).

(** * Vocabulary of the properties *)

(** ** The contract of the search refiner *)

Module Refiner.

(** [t] occurs in [s]. *)
Definition substring_of (t s : string) : Prop := exists a b, s = a +:+ t +:+ b.

(** The query is absent, or empty once trimmed. *)
Definition query_blank (filters : option SearchFilters) : Prop :=
  match filters with
  | None => True
  | Some f =>
      match searchQuery f with
      | None => True
      | Some q => Js.trim q = EmptyString
      end
  end.

(** The contract's test of one fossil against the term: the term occurs
    in the lower-cased species (when present), location (when present),
    description, or some tag. *)
Definition matches (term : string) (x : Fossil) : Prop :=
  (exists s, species x = Some s /\ substring_of term (Js.toLowerCase s)) \/
  (exists s, location x = Some s /\ substring_of term (Js.toLowerCase s)) \/
  substring_of term (Js.toLowerCase (description x)) \/
  (exists ts tag, tags x = Some ts /\ In tag ts /\
                  substring_of term (Js.toLowerCase tag)).

End Refiner.

(** ** The queries that the operations issue *)

Definition count_query (filters : option SearchFilters) : Query :=
  applyFilters select_count (removeSearchQuery filters).

Definition data_query (page pageSize : Z) (filters : option SearchFilters) : Query :=
  chain (chain (applyFilters select_all (removeSearchQuery filters))
               (Order "created_at" false))
        (Range ((page - 1) * pageSize) ((page - 1) * pageSize + pageSize - 1)).

Definition all_data_query (filters : option SearchFilters) : Query :=
  chain (applyFilters select_all (removeSearchQuery filters)) (Order "created_at" false).

Definition user_query (user : string) (filters : option SearchFilters) : Query :=
  chain (applyFilters (chain select_all (Eq "user_id" user)) (removeSearchQuery filters))
        (Order "created_at" false).

(** A query fails when its promise rejects or resolves with an error. *)
Definition query_fails (be : Backend) (q : Query) (e : Js.Thrown) : Prop :=
  run_query be q = Rejected e \/
  exists r, run_query be q = Resolved r /\ error r = Some e.

Definition query_succeeds (be : Backend) (q : Query) (r : Response) : Prop :=
  run_query be q = Resolved r /\ error r = None.

(** The text that a thrown value carries: the message of an [Error], the
    payload of any other value (the [message] of an error object of the
    backend, the text of a thrown string). *)
Definition carried_message (e : Js.Thrown) : string :=
  match e with
  | Js.ErrorInstance m => m
  | Js.OtherValue payload => payload
  end.

(** The cache lookup of [fetchAllFossils] finds nothing: the guard skips
    it, or the key is not in the map. *)
Definition cache_miss (page : Z) (filters : option SearchFilters) (s : State) : Prop :=
  (if cache_lookup_allowed filters
   then allFossilsCache s !! buildCacheKey page filters else None) = None.

(** The clauses that order the result, in the order of the chain. *)
Definition orderings (q : Query) : list (string * bool) :=
  omap (fun c => match c with Order col asc => Some (col, asc) | _ => None end)
       (q_clauses q).

(** The inclusive range that a query asks for: its last [range] call. *)
Definition range_of (q : Query) : option (Z * Z) :=
  fold_left (fun acc c => match c with Range a b => Some (a, b) | _ => acc end)
            (q_clauses q) None.

(** The call is answered by the loaded flag: the flag is set and the
    filters print as the stored ones do. *)
Definition answered_by_flag (filters : option SearchFilters) (s : State) : bool :=
  userFossilsCached s &&
  bool_decide (JSON_stringify filters = JSON_stringify (userFossilsFilters s)).

(** A fetch that reached the backend and failed there: the auth call
    rejects, or a user is signed in and the query fails. *)
Definition user_fetch_fails (be : Backend) (filters : option SearchFilters)
    (e : Js.Thrown) : Prop :=
  getUser be = Rejected e \/
  exists user, getUser be = Resolved (Some user) /\
               query_fails be (user_query user filters) e.

(** ** Example data

    The examples of the specification: two fossils, a query that matches
    the location of the first and one, in capitals, that matches the
    description of the second. *)
Definition trilobite : Fossil :=
  mkFossil "f1" "u1" (Some "Trilobite") "nice" (Some "Utah") None
           (Some ["paleozoic"]) "t.png" "2024-01-02" "2024-01-02".

Definition ammonite : Fossil :=
  mkFossil "f2" "u1" (Some "Ammonite") "spiral" (Some "France") None
           (Some []) "a.png" "2024-01-01" "2024-01-01".

(** The [n]-th of a series of finds from Utah. *)
Definition utah_find (n : nat) : Fossil :=
  mkFossil ("u" +:+ pretty n) "u1" None "unidentified" (Some "Utah") None None
           "u.png" "2024-02-01" "2024-02-01".

Definition query_only (q : string) : option SearchFilters :=
  Some (mkFilters (Some q) None None None None None).

(** *** Example backends *)

(** A table whose rows are kept newest first and all satisfy the
    predicates asked of it: a count query is answered with the number of
    rows, a data query with the rows of its inclusive range. *)
Definition table_backend (rows : list Fossil) (user : option string) : Backend :=
  mkBackend
    (fun q =>
       Resolved
         (if q_count_head q then mkResponse None (Some (Z.of_nat (length rows))) None
          else
            match range_of q with
            | Some (a, b) => mkResponse (Some (Js.slice rows a (b + 1))) None None
            | None => mkResponse (Some rows) None None
            end))
    (Resolved user).

(** A backend whose count queries resolve with a count of 0 and whose
    data queries resolve with the error [e]. *)
Definition failing_backend (e : Js.Thrown) (user : option string) : Backend :=
  mkBackend
    (fun q =>
       Resolved
         (if q_count_head q then mkResponse None (Some 0) None
          else mkResponse None None (Some e)))
    (Resolved user).

(** * More of the application

    The parts of the application around the context: the filter form that
    builds the [SearchFilters] values, the page buttons and the tag list of
    the list pages, and the tag field of the add and edit forms. *)

(** ** More of JavaScript *)

Module JsLib.

(** [s.split(sep)] for a separator of one code unit: the pieces between
    the separators, so a string without separator, the empty string too,
    gives one piece. *)
Fixpoint split (sep : ascii) (s : string) : list string :=
  match s with
  | EmptyString => [EmptyString]
  | String c r =>
      if Ascii.eqb c sep then EmptyString :: split sep r
      else
        match split sep r with
        | piece :: pieces => String c piece :: pieces
        | [] => [String c EmptyString]
        end
  end.

(** [set.add(x)] on a [Set] of strings, kept in insertion order. *)
Definition set_add (set : list string) (x : string) : list string :=
  if existsb (String.eqb x) set then set else (set ++ [x])%list.

(** The default order of [Array.prototype.sort] on strings: code unit by
    code unit. *)
Definition before (x y : string) : bool := String.leb x y.

Fixpoint sort_insert (x : string) (sorted : list string) : list string :=
  match sorted with
  | [] => [x]
  | y :: r => if before x y then x :: y :: r else y :: sort_insert x r
  end.

(** [array.sort()] on strings.  The language fixes the result of a sort,
    not its algorithm: the elements in ascending order, equal elements in
    their original order.  Insertion from the right gives that result. *)
Definition sort (l : list string) : list string := fold_right sort_insert [] l.

End JsLib.

(** ** The filter form ([FossilSearchFilters]) *)

Module FossilSearchFilters.

(** The state of the form: the text of each input and the selected tags. *)
Record FormState : Type := mkForm {
  searchQuery : string;
  species : string;
  location : string;
  selectedTags : list string;
  dateFrom : string;
  dateTo : string
}.

(** [x || undefined] on a string. *)
Definition or_undefined (x : string) : option string :=
  if Js.truthy x then Some x else None.

(** The value that [handleApplyFilters] passes to [onFiltersChange]. *)
Definition handleApplyFilters (form : FormState) : SearchFilters :=
  mkFilters
    (or_undefined (Js.trim (searchQuery form)))
    (or_undefined (Js.trim (species form)))
    (or_undefined (Js.trim (location form)))
    (if (0 <? length (selectedTags form))%nat then Some (selectedTags form) else None)
    (or_undefined (dateFrom form))
    (or_undefined (dateTo form)).

(** [handleClearFilters]: the form is emptied and [{}] is passed on. *)
Definition handleClearFilters (form : FormState) : FormState * SearchFilters :=
  (mkForm "" "" "" [] "" "", no_filters).

(** The updater of [toggleTag]. *)
Definition toggleTag (tag : string) (prev : list string) : list string :=
  if existsb (String.eqb tag) prev
  then List.filter (fun t => negb (String.eqb t tag)) prev
  else (prev ++ [tag])%list.

(** [hasActiveFilters], as a condition. *)
Definition hasActiveFilters (form : FormState) : bool :=
  Js.truthy (searchQuery form) || Js.truthy (species form) ||
  Js.truthy (location form) || (0 <? length (selectedTags form))%nat ||
  Js.truthy (dateFrom form) || Js.truthy (dateTo form).

End FossilSearchFilters.

(** ** The list pages *)

Module Home.

(** The number on the [i]-th page button. *)
Definition pageNum (currentPage totalPages i : Z) : Z :=
  if totalPages <=? 5 then i + 1
  else if currentPage <=? 3 then i + 1
  else if currentPage >=? totalPages - 2 then totalPages - 4 + i
  else currentPage - 2 + i.

(** [Array.from({ length: Math.min(5, totalPages) }, (_, i) => pageNum)]:
    a length that is not positive gives no button.  This is the expression
    alone, without the conditions under which the page renders it; the
    buttons that the page shows are [shownPageButtons] below. *)
Definition pageButtons (currentPage totalPages : Z) : list Z :=
  map (fun i => pageNum currentPage totalPages (Z.of_nat i))
      (seq 0 (Z.to_nat (Z.min 5 totalPages))).

(** The conditions under which the page renders its pagination block: the
    list of fossils is not empty ([fossils.length === 0 ? ... : ...], and
    both early returns of the page require an empty list as well) and there
    is more than one page ([totalPages > 1 && ...]). *)
Definition paginationShown (fossils : list Fossil) (totalPages : Z) : bool :=
  negb (Z.of_nat (length fossils) =? 0) && (totalPages >? 1).

(** The page buttons that the page shows. *)
Definition shownPageButtons
    (fossils : list Fossil) (currentPage totalPages : Z) : list Z :=
  if paginationShown fossils totalPages
  then pageButtons currentPage totalPages
  else [].

(** The updaters of the Previous and Next buttons. *)
Definition previousPage (prev : Z) : Z := Z.max 1 (prev - 1).
Definition nextPage (totalPages prev : Z) : Z := Z.min totalPages (prev + 1).

(** The set of the tags of the fossils, in the order they are first met. *)
Definition tagSet (fossils : list Fossil) : list string :=
  fold_left
    (fun set fossil =>
       match tags fossil with
       | Some ts => fold_left JsLib.set_add ts set
       | None => set
       end)
    fossils [].

(** [availableTags]: [Array.from(tagSet).sort()]. *)
Definition availableTags (fossils : list Fossil) : list string :=
  JsLib.sort (tagSet fossils).

End Home.

(** ** The tag field of the add and edit forms *)

Module FossilForm.

(** [tagsArray]: the text of the field, cut at the commas, each piece
    trimmed and the empty pieces dropped; [null] for an empty field. *)
Definition tagsArray (tags : string) : option (list string) :=
  if Js.truthy tags
  then Some (List.filter (fun tag => (0 <? String.length tag)%nat)
               (map Js.trim (JsLib.split "," tags)))
  else None.

(** The text that the edit form shows for the tags of a fossil. *)
Definition tagsText (fossil_tags : option (list string)) : string :=
  match fossil_tags with
  | Some ts => Js.join ", " ts
  | None => ""
  end.

End FossilForm.

(** ** The add and edit forms ([AddFossilModal], [EditFossilModal]) *)

(** The fields of [Fossil] that the forms read, under names that the
    fields of the forms do not hide. *)
Definition fossil_owner (x : Fossil) : string := user_id x.
Definition fossil_image_url (x : Fossil) : string := image_url x.
Definition fossil_id (x : Fossil) : string := id x.

Module Modal.

(** The fields of the form, the chosen file (its name is all the code
    reads of it), and the two flags shown to the user. *)
Record FormState : Type := mkForm {
  species : string;
  description : string;
  location : string;
  discoveryDate : string;
  tags : string;
  imageFile : option string;      (* [imageFile.name] *)
  imagePreview : option string;
  loading : bool;
  error : string
}.

(** The object given to [insert]. *)
Record InsertRow : Type := mkInsert {
  i_user_id : string;
  i_species : option string;
  i_description : string;
  i_location : option string;
  i_discovery_date : option string;
  i_tags : option (list string);
  i_image_url : string
}.

(** The object given to [update]. *)
Record UpdateRow : Type := mkUpdate {
  u_species : option string;
  u_description : string;
  u_location : option string;
  u_discovery_date : option string;
  u_tags : option (list string);
  u_image_url : string
}.

(** What a submit does outside the form, in order: the calls on the
    bucket [fossil-images] and on the table [fossils], and the calls of
    the two callbacks of the parent. *)
Inductive Event : Type :=
  | Upload (path file : string)
  | Remove (paths : list string)
  | Insert (row : InsertRow)
  | Update (row : UpdateRow) (predicates : list Clause)
  | OnClose
  | OnSuccess.

(** The collaborators of a submit: each awaited call settles, with the
    [error] field of what it resolves to; [getPublicUrl] is synchronous;
    [now] is the value of [Date.now()]. *)
Record Services : Type := mkServices {
  upload : string -> string -> Settled (option Js.Thrown);
  remove : list string -> Settled (option Js.Thrown);
  getPublicUrl : string -> string;
  insert : InsertRow -> Settled (option Js.Thrown);
  update : UpdateRow -> list Clause -> Settled (option Js.Thrown);
  now : Z
}.

Record World : Type := mkWorld {
  form : FormState;
  events : list Event
}.

Definition Task (A : Type) : Type := World -> Completion A * World.

#[global] Instance Task_ret : MRet Task := fun A a w => (Normal a, w).

#[global] Instance Task_bind : MBind Task := fun A B k m w =>
  match m w with
  | (Normal a, w') => k a w'
  | (Abrupt e, w') => (Abrupt e, w')
  end.

Definition throw {A} (e : Js.Thrown) : Task A := fun w => (Abrupt e, w).

Definition get_form : Task FormState := fun w => (Normal (form w), w).

Definition set_form (f : FormState -> FormState) : Task unit :=
  fun w => (Normal tt, mkWorld (f (form w)) (events w)).

Definition emit (e : Event) : Task unit :=
  fun w => (Normal tt, mkWorld (form w) (events w ++ [e])).

(** [await] on a call of the collaborators, logged when it is made. *)
Definition await {A} (e : Event) (p : Settled A) : Task A :=
  fun w =>
    let w' := mkWorld (form w) (events w ++ [e]) in
    match p with
    | Resolved a => (Normal a, w')
    | Rejected r => (Abrupt r, w')
    end.

(** [try { body } catch (err) { handler }]. *)
Definition try_catch {A} (body : Task A) (handler : Js.Thrown -> Task A) : Task A :=
  fun w =>
    match body w with
    | (Normal a, w1) => (Normal a, w1)
    | (Abrupt e, w1) => handler e w1
    end.

(** [try { body } catch (err) { handler } finally { fin }]. *)
Definition try_catch_finally {A} (body : Task A)
    (handler : Js.Thrown -> Task A) (fin : Task unit) : Task A :=
  fun w =>
    let '(r, w1) := try_catch body handler w in
    match fin w1 with
    | (Normal _, w2) => (r, w2)
    | (Abrupt e, w2) => (Abrupt e, w2)
    end.

Definition setError (v : string) : Task unit :=
  set_form (fun f => mkForm (species f) (description f) (location f) (discoveryDate f)
                            (tags f) (imageFile f) (imagePreview f) (loading f) v).

Definition setLoading (v : bool) : Task unit :=
  set_form (fun f => mkForm (species f) (description f) (location f) (discoveryDate f)
                            (tags f) (imageFile f) (imagePreview f) v (error f)).

(** The seven setters that empty the add form after a success. *)
Definition resetForm : Task unit :=
  set_form (fun f => mkForm "" "" "" "" "" None None (loading f) (error f)).

(** [err instanceof Error ? err.message : defaultMsg]. *)
Definition message_or (defaultMsg : string) (err : Js.Thrown) : string :=
  match err with
  | Js.ErrorInstance m => m
  | Js.OtherValue _ => defaultMsg
  end.

(** [x || null] on a string. *)
Definition or_null (x : string) : option string :=
  if Js.truthy x then Some x else None.

(** [imageFile.name.split('.').pop()]. *)
Definition fileExt (name : string) : string :=
  List.last (JsLib.split "." name) EmptyString.

(** The path of a new image: the id of the user, the time, the
    extension. *)
Definition fileName (user_id : string) (now : Z) (name : string) : string :=
  user_id +:+ "/" +:+ pretty now +:+ "." +:+ fileExt name.

(** [if (onSuccess) onSuccess()]. *)
Definition call_onSuccess (onSuccess : bool) : Task unit :=
  if onSuccess then emit OnSuccess else mret tt.

(** *** [AddFossilModal]: [handleSubmit] *)

Definition add_try (sv : Services) (user_id : string) (onSuccess : bool) : Task unit :=
  f ← get_form;
  match imageFile f with
  | None => throw (Js.ErrorInstance "Please select an image")
  | Some name =>
      let fileName := fileName user_id (now sv) name in
      uploadError ← await (Upload fileName name) (upload sv fileName name);
      match uploadError with
      | Some e => throw e
      | None =>
          let publicUrl := getPublicUrl sv fileName in
          let tagsArray := FossilForm.tagsArray (tags f) in
          let row := mkInsert user_id (or_null (species f)) (description f)
                              (or_null (location f)) (or_null (discoveryDate f))
                              tagsArray publicUrl in
          insertError ← await (Insert row) (insert sv row);
          match insertError with
          | Some e =>
              _ ← await (Remove [fileName]) (remove sv [fileName]);
              throw e
          | None =>
              resetForm;;
              emit OnClose;;
              call_onSuccess onSuccess
          end
      end
  end.

Definition add_handleSubmit (sv : Services) (user_id : string) (onSuccess : bool)
  : Task unit :=
  setError "";;
  setLoading true;;
  try_catch_finally
    (add_try sv user_id onSuccess)
    (fun err =>
       setError (message_or "An error occurred while submitting the fossil" err))
    (setLoading false).

(** *** [EditFossilModal]: [handleSubmit] *)

(** The index of the first part equal to [x], as [findIndex] gives it. *)
Fixpoint findIndex (x : string) (parts : list string) : option nat :=
  match parts with
  | [] => None
  | p :: r => if String.eqb p x then Some 0%nat else S <$> findIndex x r
  end.

(** The path of the stored image in its public address: what follows the
    part [fossil-images], when there is such a part and it is not the
    last. *)
Definition oldImagePath (image_url : string) : option string :=
  let urlParts := JsLib.split "/" image_url in
  match findIndex "fossil-images" urlParts with
  | Some fileNameIndex =>
      if (fileNameIndex <? length urlParts - 1)%nat
      then Some (Js.join "/" (skipn (fileNameIndex + 1) urlParts))
      else None
  | None => None
  end.

(** The inner [try] of the edit: the old image is removed from the
    bucket, and a failure of that is logged to the console and dropped. *)
Definition remove_old_image (sv : Services) (fossil : Fossil) : Task unit :=
  try_catch
    (match oldImagePath (fossil_image_url fossil) with
     | Some path => _ ← await (Remove [path]) (remove sv [path]); mret tt
     | None => mret tt
     end)
    (fun _ => mret tt).

Definition edit_try (sv : Services) (user_id : string) (fossil : Fossil)
    (onSuccess : bool) : Task unit :=
  f ← get_form;
  imageUrl ←
    match imageFile f with
    | Some name =>
        remove_old_image sv fossil;;
        let fileName := fileName user_id (now sv) name in
        uploadError ← await (Upload fileName name) (upload sv fileName name);
        match uploadError with
        | Some e => throw e
        | None => mret (getPublicUrl sv fileName)
        end
    | None => mret (fossil_image_url fossil)
    end;
  if negb (String.eqb (fossil_owner fossil) user_id)
  then throw (Js.ErrorInstance "You do not have permission to edit this fossil")
  else
    let tagsArray := FossilForm.tagsArray (tags f) in
    let row := mkUpdate (or_null (species f)) (description f) (or_null (location f))
                        (or_null (discoveryDate f)) tagsArray imageUrl in
    let predicates := [Eq "id" (fossil_id fossil); Eq "user_id" user_id] in
    updateError ← await (Update row predicates) (update sv row predicates);
    match updateError with
    | Some e => throw e
    | None =>
        emit OnClose;;
        call_onSuccess onSuccess
    end.

Definition edit_handleSubmit (sv : Services) (user_id : string) (fossil : Fossil)
    (onSuccess : bool) : Task unit :=
  setError "";;
  setLoading true;;
  try_catch_finally
    (edit_try sv user_id fossil onSuccess)
    (fun err =>
       setError (message_or "An error occurred while updating the fossil" err))
    (setLoading false).

End Modal.

(** *** [EditFossilModal]: the effect that fills the form *)

(** The form after the effect that runs when the modal opens on a
    fossil: the texts of the fossil, its date cut at the [T], its tags
    joined, no new file. *)
Definition edit_populate (fossil : Fossil) (f : Modal.FormState) : Modal.FormState :=
  Modal.mkForm
    (default "" (species fossil))
    (description fossil)
    (default "" (location fossil))
    (match discovery_date fossil with
     | Some d => if Js.truthy d then List.hd "" (JsLib.split "T" d) else ""
     | None => ""
     end)
    (FossilForm.tagsText (tags fossil))
    None
    (Some (image_url fossil))
    (Modal.loading f)
    "".

(** ** Vocabulary of the further properties *)

(** A string that does not start with white space. *)
Definition starts_clean (s : string) : Prop :=
  match s with
  | EmptyString => True
  | String c _ => Js.is_space c = false
  end.

(** The filters [f] with the search query replaced. *)
Definition with_query (q : option string) (f : SearchFilters) : SearchFilters :=
  mkFilters q (f_species f) (f_location f) (f_tags f) (dateFrom f) (dateTo f).

(** The form holds nothing but white space. *)
Definition blank_form (form : FossilSearchFilters.FormState) : Prop :=
  Js.trim (FossilSearchFilters.searchQuery form) = EmptyString /\
  Js.trim (FossilSearchFilters.species form) = EmptyString /\
  Js.trim (FossilSearchFilters.location form) = EmptyString /\
  FossilSearchFilters.selectedTags form = [] /\
  FossilSearchFilters.dateFrom form = EmptyString /\
  FossilSearchFilters.dateTo form = EmptyString.

(** A tag of some fossil of the list. *)
Definition tag_of (fossils : list Fossil) (t : string) : Prop :=
  exists x ts, In x fossils /\ tags x = Some ts /\ In t ts.

(** Ascending in the default order of [sort]. *)
Definition ascending (l : list string) : Prop :=
  Sorted (fun a b => JsLib.before a b = true) l.

(** The code unit [c] occurs in [s]. *)
Fixpoint mentions (c : ascii) (s : string) : bool :=
  match s with
  | EmptyString => false
  | String d r => Ascii.eqb d c || mentions c r
  end.

(** A tag as the forms store it: not empty, nothing to trim, no comma. *)
Definition stored_tag (t : string) : Prop :=
  t <> EmptyString /\ Js.trim t = t /\ mentions "," t = false.


(** A backend whose count query resolves with an error and no count. *)
Definition count_failing_backend (e : Js.Thrown) (rows : list Fossil) : Backend :=
  mkBackend (fun q => if q_count_head q
                      then Resolved (mkResponse None None (Some e))
                      else Resolved (mkResponse (Some rows) None None))
            (Resolved None).

(** A backend that answers the ranged queries and fails the unranged. *)
Definition unranged_failing_backend (e : Js.Thrown) (rows : list Fossil) : Backend :=
  mkBackend (fun q => if q_count_head q
                      then Resolved (mkResponse None (Some (Z.of_nat (length rows))) None)
                      else match range_of q with
                           | Some _ => Resolved (mkResponse (Some rows) None None)
                           | None => Resolved (mkResponse None None (Some e))
                           end)
            (Resolved None).

(** A service whose calls all resolve without error. *)
Definition fine_services : Modal.Services :=
  Modal.mkServices (fun _ _ => Resolved None) (fun _ => Resolved None)
                   (fun path => "https://db.example/fossil-images/" +:+ path)
                   (fun _ => Resolved None) (fun _ _ => Resolved None) 17.

(** A fossil whose optional texts are absent rather than empty, whose
    date, if any, is a plain date, and whose tags, if any, are a non-empty
    list of stored tags. *)
Definition plain_fossil (x : Fossil) : Prop :=
  species x <> Some EmptyString /\
  location x <> Some EmptyString /\
  match discovery_date x with
  | Some d => d <> EmptyString /\ mentions "T" d = false
  | None => True
  end /\
  match tags x with
  | Some ts => ts <> [] /\ Forall stored_tag ts
  | None => True
  end.

(** * Properties *)

(** Unfolds the operations down to functions on the world. *)
Ltac unfold_async :=
  unfold fetchAllFossils_try, fetchUserFossils_try, clearCache, try_catch_finally,
    setAllFossils, setUserFossils, setAllFossilsCount, setLoadingAll, setLoadingUser,
    setErrorAll, setErrorUser, setAllFossilsCache, setUserFossilsCached,
    setUserFossilsFilters, await, throw, get_state, update,
    mbind, mret, Async_bind, Async_ret;
  cbv zeta.

(** ** Strings *)

Section StringFacts.

Lemma prefix_app (t s : string) :
  String.prefix t s = true <-> exists b, s = t +:+ b.
Proof.
  revert s; induction t as [|c t IH]; intros s.
  - split; [intros _; exists s; reflexivity | intros _; destruct s; reflexivity].
  - destruct s as [|d s]; simpl.
    + split; [discriminate | intros [b Hb]; discriminate].
    + destruct (Ascii.ascii_dec c d) as [->|Hne].
      * rewrite IH. split; intros [b Hb]; exists b.
        -- now rewrite Hb.
        -- now injection Hb.
      * split; [discriminate | intros [b Hb]; injection Hb; congruence].
Qed.

Lemma includes_substring (s t : string) :
  Js.includes s t = true <-> exists a b, s = a +:+ t +:+ b.
Proof.
  induction s as [|c s IH]; cbn [Js.includes].
  - rewrite orb_false_r, prefix_app. split.
    + intros [b Hb]. exists EmptyString, b. exact Hb.
    + intros [a [b Hb]]. destruct a; [exists b; exact Hb | discriminate].
  - rewrite orb_true_iff, prefix_app, IH. split.
    + intros [[b Hb] | [a [b Hb]]].
      * exists EmptyString, b. exact Hb.
      * exists (String c a), b. simpl. now rewrite Hb.
    + intros [a [b Hb]]. destruct a as [|d a]; simpl in Hb.
      * left. exists b. exact Hb.
      * right. exists a, b. now injection Hb.
Qed.

Lemma is_space_lower (c : ascii) : Js.is_space (Js.lower_unit c) = Js.is_space c.
Proof. destruct c as [[] [] [] [] [] [] [] []]; reflexivity. Qed.

Lemma trimStart_lower (s : string) :
  Js.trimStart (Js.toLowerCase s) = Js.toLowerCase (Js.trimStart s).
Proof.
  induction s as [|c s IH]; simpl; [reflexivity|].
  rewrite is_space_lower. destruct (Js.is_space c); [exact IH | reflexivity].
Qed.

Lemma trimEnd_lower (s : string) :
  Js.trimEnd (Js.toLowerCase s) = Js.toLowerCase (Js.trimEnd s).
Proof.
  induction s as [|c s IH]; simpl; [reflexivity|].
  rewrite IH, is_space_lower.
  destruct (Js.trimEnd s); simpl; [destruct (Js.is_space c)|]; reflexivity.
Qed.

(** Lower-casing and trimming commute: the search term of the code,
    [searchQuery.toLowerCase().trim()], is the lower-cased trimmed query. *)
Lemma trim_lower (s : string) :
  Js.trim (Js.toLowerCase s) = Js.toLowerCase (Js.trim s).
Proof. unfold Js.trim. now rewrite trimStart_lower, trimEnd_lower. Qed.

End StringFacts.

(** ** The search refiner against its contract *)

Lemma opt_includes_substring (field : option string) (term : string) :
  opt_includes field term = true <->
  exists s, field = Some s /\ Refiner.substring_of term (Js.toLowerCase s).
Proof.
  destruct field as [s|]; simpl.
  - rewrite includes_substring. split.
    + intros H. exists s. split; [reflexivity | exact H].
    + intros [s' [[= <-] H]]. exact H.
  - split; [discriminate | intros [s [[=] _]]].
Qed.

Lemma matchesSearch_matches (term : string) (x : Fossil) :
  matchesSearch term x = true <-> Refiner.matches term x.
Proof.
  unfold matchesSearch, Refiner.matches.
  rewrite !orb_true_iff, !opt_includes_substring, includes_substring.
  assert (Htags :
    match tags x with
    | Some ts => existsb (fun tag => Js.includes (Js.toLowerCase tag) term) ts
    | None => false
    end = true <->
    exists ts tag, tags x = Some ts /\ In tag ts /\
                   Refiner.substring_of term (Js.toLowerCase tag)).
  { destruct (tags x) as [ts|].
    - rewrite existsb_exists. split.
      + intros [tag [Hin Hinc]]. exists ts, tag.
        rewrite includes_substring in Hinc. auto.
      + intros [ts' [tag [[= <-] [Hin Hsub]]]]. exists tag.
        rewrite includes_substring. auto.
    - split; [discriminate | intros [ts [tag [[=] _]]]]. }
  rewrite Htags. tauto.
Qed.

(** C3. For every list of fossils and every optional filter value: when the
    search query is absent or empty after trimming, [filterFossils] returns
    the list unchanged; otherwise it returns the fossils, in their original
    order, for which the lower-cased trimmed query occurs in the lower-cased
    species (when present), location (when present), description, or some
    tag. *)
Theorem filterFossils_contract (fossils : list Fossil) (filters : option SearchFilters) :
  (Refiner.query_blank filters -> filterFossils fossils filters = fossils) /\
  (forall f q,
      filters = Some f -> searchQuery f = Some q -> Js.trim q <> EmptyString ->
      exists keep : Fossil -> bool,
        (forall x, keep x = true <-> Refiner.matches (Js.toLowerCase (Js.trim q)) x) /\
        filterFossils fossils filters = List.filter keep fossils).
Proof.
  split.
  - unfold Refiner.query_blank, filterFossils.
    destruct filters as [f|]; [|reflexivity].
    destruct (searchQuery f) as [q|]; [|reflexivity].
    intros Hblank. destruct (Js.truthy q); simpl; [|reflexivity].
    rewrite trim_lower, Hblank. reflexivity.
  - intros f q -> Hq Hne. exists (matchesSearch (Js.toLowerCase (Js.trim q))).
    split; [intros x; apply matchesSearch_matches|].
    unfold filterFossils. rewrite Hq.
    assert (Js.truthy q = true) as ->.
    { destruct q; [now contradict Hne | reflexivity]. }
    simpl. rewrite trim_lower.
    assert (Js.truthy (Js.toLowerCase (Js.trim q)) = true) as ->.
    { destruct (Js.trim q); [now contradict Hne | reflexivity]. }
    reflexivity.
Qed.

Example filterFossils_utah :
  filterFossils [trilobite; ammonite] (query_only "utah") = [trilobite].
Proof. reflexivity. Qed.

Example filterFossils_SPIRAL :
  filterFossils [trilobite; ammonite] (query_only "SPIRAL") = [ammonite].
Proof. reflexivity. Qed.

(** The contract on the two fossils of the specification: a blank query,
    and a query that is trimmed and lower-cased to the location of the first. *)
Lemma filterFossils_contract_witness :
  filterFossils [trilobite; ammonite] (query_only "  ") = [trilobite; ammonite] /\
  exists keep : Fossil -> bool,
    (forall x, keep x = true <-> Refiner.matches "utah" x) /\
    filterFossils [trilobite; ammonite] (query_only " Utah ")
    = List.filter keep [trilobite; ammonite].
Proof.
  split.
  - apply (proj1 (filterFossils_contract [trilobite; ammonite] (query_only "  "))).
    reflexivity.
  - apply (proj2 (filterFossils_contract [trilobite; ammonite] (query_only " Utah "))
             (mkFilters (Some " Utah ") None None None None None) " Utah "
             eq_refl eq_refl).
    discriminate.
Defined.

Section FetchAll.

Variable be : Backend.
Variables page pageSize : Z.
Variable filters : option SearchFilters.

Lemma fetchAllFossils_hit (w : World) (cached : PageResult) :
  cache_lookup_allowed filters = true ->
  allFossilsCache (w_state w) !! buildCacheKey page filters = Some cached ->
  fetchAllFossils be page pageSize filters w =
    (Normal cached,
     mkWorld (with_allFossilsCount (totalCount cached)
                (with_allFossils (fossils cached) (w_state w)))
             (w_calls w)).
Proof.
  intros Hallowed Hget. unfold fetchAllFossils. unfold_async.
  cbn [w_state]. rewrite Hallowed, Hget. reflexivity.
Qed.

Lemma fetchAllFossils_miss (w : World) :
  cache_miss page filters (w_state w) ->
  fetchAllFossils be page pageSize filters w =
    try_catch_finally
      (fetchAllFossils_try be (buildCacheKey page filters) page pageSize filters)
      (fun err => setErrorAll (getErrorMessage err);; throw err)
      (setLoadingAll false) w.
Proof.
  intros Hmiss. unfold cache_miss in Hmiss. unfold fetchAllFossils.
  unfold mbind at 1, Async_bind, get_state. cbv zeta. rewrite Hmiss. reflexivity.
Qed.

(** The data query fails: the error message is recorded, the loading
    flag is reset, the error is rethrown. *)
Lemma fetchAllFossils_data_failure (w : World) (rc : Response) (e : Js.Thrown) :
  cache_miss page filters (w_state w) ->
  run_query be (count_query filters) = Resolved rc ->
  query_fails be (data_query page pageSize filters) e ->
  fetchAllFossils be page pageSize filters w =
    (Abrupt e,
     mkWorld (with_loadingAll false (with_errorAll (getErrorMessage e) (w_state w)))
             (w_calls w ++ [CallQuery (count_query filters);
                            CallQuery (data_query page pageSize filters)])).
Proof.
  intros Hmiss Hcount Hfail. rewrite (fetchAllFossils_miss w Hmiss).
  unfold count_query, data_query, query_fails in *. unfold_async.
  rewrite Hcount. cbn [w_state w_calls].
  destruct Hfail as [Hrej | [r [Hres Herr]]].
  - rewrite Hrej. rewrite <- app_assoc. reflexivity.
  - rewrite Hres, Herr. rewrite <- app_assoc. reflexivity.
Qed.

Lemma search_is_miss (st : State) :
  has_searchQuery filters = true -> cache_miss page filters st.
Proof.
  unfold has_searchQuery, cache_miss, cache_lookup_allowed.
  destruct filters as [f|]; [|discriminate]. intros ->. reflexivity.
Qed.

Lemma lookup_allowed_no_search :
  cache_lookup_allowed filters = true -> has_searchQuery filters = false.
Proof.
  unfold has_searchQuery, cache_lookup_allowed.
  destruct filters as [f|]; [|reflexivity].
  destruct (Js.truthy_opt (searchQuery f)); [discriminate | reflexivity].
Qed.

(** Without a search query, a successful fetch stores the page of the
    backend and its count, and adds the pair to the cache. *)
Lemma fetchAllFossils_success_plain (w : World) (rc rd : Response) :
  cache_miss page filters (w_state w) ->
  has_searchQuery filters = false ->
  run_query be (count_query filters) = Resolved rc ->
  query_succeeds be (data_query page pageSize filters) rd ->
  let result := mkPage (default [] (data rd)) (default 0 (count rc)) in
  fetchAllFossils be page pageSize filters w =
    (Normal result,
     mkWorld
       (with_loadingAll false
          (with_allFossilsCache
             (<[buildCacheKey page filters := result]> (allFossilsCache (w_state w)))
             (with_allFossils (fossils result)
                (with_allFossilsCount (totalCount result)
                   (with_errorAll "" (w_state w))))))
       (w_calls w ++ [CallQuery (count_query filters);
                      CallQuery (data_query page pageSize filters)])).
Proof.
  intros Hmiss Hsearch Hcount [Hdata Herr]. rewrite (fetchAllFossils_miss w Hmiss).
  unfold count_query, data_query in *. unfold_async.
  rewrite Hcount. cbn [w_state w_calls]. rewrite Hdata, Herr, Hsearch.
  rewrite <- app_assoc. reflexivity.
Qed.

(** With a search query, the unpaginated set is fetched and refined: the
    count in the state is the size of the refined set, the page is a
    slice of it, and the [totalCount] returned is the length of that
    slice. *)
Lemma fetchAllFossils_success_search (w : World) (rc rd ra : Response) :
  has_searchQuery filters = true ->
  run_query be (count_query filters) = Resolved rc ->
  query_succeeds be (data_query page pageSize filters) rd ->
  run_query be (all_data_query filters) = Resolved ra ->
  let filteredAll := filterFossils (default [] (data ra)) filters in
  let slice :=
    Js.slice filteredAll ((page - 1) * pageSize) ((page - 1) * pageSize + pageSize) in
  fetchAllFossils be page pageSize filters w =
    (Normal (mkPage slice (Z.of_nat (length slice))),
     mkWorld
       (with_loadingAll false
          (with_allFossils slice
             (with_allFossilsCount (Z.of_nat (length filteredAll))
                (with_errorAll "" (w_state w)))))
       (w_calls w ++ [CallQuery (count_query filters);
                      CallQuery (data_query page pageSize filters);
                      CallQuery (all_data_query filters)])).
Proof.
  intros Hsearch Hcount [Hdata Herr] Hall.
  rewrite (fetchAllFossils_miss w (search_is_miss (w_state w) Hsearch)).
  unfold count_query, data_query, all_data_query in *. unfold_async.
  rewrite Hcount. cbn [w_state w_calls]. rewrite Hdata, Herr, Hsearch.
  cbn [w_state w_calls]. rewrite Hall. rewrite <- !app_assoc. reflexivity.
Qed.


(** When the count query resolves, the data query follows it. *)
Lemma fetchAllFossils_miss_data_call (w : World) (rc : Response) :
  cache_miss page filters (w_state w) ->
  run_query be (count_query filters) = Resolved rc ->
  exists rest,
    w_calls (fetchAllFossils be page pageSize filters w).2 =
    (w_calls w ++ CallQuery (count_query filters)
               :: CallQuery (data_query page pageSize filters) :: rest)%list.
Proof.
  intros Hmiss Hcount. rewrite (fetchAllFossils_miss w Hmiss).
  unfold count_query, data_query in *. unfold_async.
  rewrite Hcount. clear Hcount. cbn [w_state w_calls].
  destruct (run_query be _) as [rd|]; cbn [w_state w_calls];
    [|eexists; rewrite <- app_assoc; reflexivity].
  destruct (error rd); [eexists; rewrite <- app_assoc; reflexivity|].
  destruct (has_searchQuery filters); cbn [w_state w_calls].
  - destruct (run_query be _); eexists; cbn [snd w_calls];
      rewrite <- !app_assoc; reflexivity.
  - eexists. rewrite <- app_assoc. reflexivity.
Qed.

End FetchAll.

(** ** Pagination arithmetic *)

Lemma ceil_div_opp (a b : Z) : 0 < b -> Js.ceil_div a b = - ((- a) / b).
Proof.
  intros Hb. destruct b as [|p|p]; try lia.
  unfold Js.ceil_div. rewrite <- (Qceiling_comp _ _ (Qmake_Qdiv a p)).
  reflexivity.
Qed.

(** [ceil_div a b] is the least [n] with [a <= n * b]. *)
Lemma ceil_div_least (a b : Z) :
  0 < b -> a <= Js.ceil_div a b * b < a + b.
Proof.
  intros Hb. rewrite (ceil_div_opp a b Hb).
  pose proof (Z.div_mod (- a) b) as Hdm.
  pose proof (Z.mod_pos_bound (- a) b Hb) as Hmod.
  nia.
Qed.

Lemma q_clauses_chain (q : Query) (c : Clause) :
  q_clauses (chain q c) = (q_clauses q ++ [c])%list.
Proof. reflexivity. Qed.

Lemma orderings_chain (q : Query) (c : Clause) :
  orderings (chain q c) =
  (orderings q ++ match c with Order col asc => [(col, asc)] | _ => [] end)%list.
Proof.
  unfold orderings. rewrite q_clauses_chain, omap_app. f_equal. now destruct c.
Qed.

Lemma orderings_when (b : bool) (c : Clause) (q : Query) :
  match c with Order _ _ => False | _ => True end ->
  orderings (when b c q) = orderings q.
Proof.
  intros Hc. unfold when. destruct b; [|reflexivity].
  rewrite orderings_chain. destruct c; try contradiction; apply app_nil_r.
Qed.

(** The predicate builder adds no ordering. *)
Lemma orderings_applyFilters (q : Query) (filters : option SearchFilters) :
  orderings (applyFilters q filters) = orderings q.
Proof.
  destruct filters as [f|]; [|reflexivity]. unfold applyFilters.
  now rewrite !orderings_when.
Qed.

(** ** [fetchAllFossils] *)

(** C1. With a search query the [totalCount] returned should be the number
    of fossils of the full matching set that pass the refiner.  On a table
    of thirteen fossils that all match the query, asked for page 1 of the
    home page (12 per page), the state receives that number, 13, but the
    pair returned carries the length of the page slice, 12. *)
Theorem fetchAllFossils_search_totalCount_is_slice_length :
  let rows := map utah_find (seq 1 13) in
  let be := table_backend rows None in
  let filters := query_only "utah" in
  exists page w,
    run (fetchAllFossils be 1 FOSSILS_PER_PAGE filters) initial_state
    = (Normal page, w) /\
    length (filterFossils rows filters) = 13%nat /\
    allFossilsCount (w_state w) = 13 /\
    length (fossils page) = 12%nat /\
    totalCount page = 12.
Proof. do 2 eexists. split; [vm_compute; reflexivity|]. repeat split. Qed.

(** A call that completes normally under the guard of the cache lookup
    leaves its result in the state and in the cache, under its key. *)
Lemma fetchAllFossils_normal_cached
    (be : Backend) (page pageSize : Z) (filters : option SearchFilters)
    (w w1 : World) (r : PageResult) :
  cache_lookup_allowed filters = true ->
  fetchAllFossils be page pageSize filters w = (Normal r, w1) ->
  allFossilsCache (w_state w1) !! buildCacheKey page filters = Some r /\
  allFossils (w_state w1) = fossils r /\
  allFossilsCount (w_state w1) = totalCount r.
Proof.
  intros Hallowed Hrun.
  destruct (allFossilsCache (w_state w) !! buildCacheKey page filters)
    as [cached|] eqn:Hget.
  - rewrite (fetchAllFossils_hit be page pageSize filters w cached Hallowed Hget) in Hrun.
    injection Hrun as <- <-. cbn. auto.
  - assert (Hmiss : cache_miss page filters (w_state w)).
    { unfold cache_miss. now rewrite Hallowed. }
    pose proof (lookup_allowed_no_search filters Hallowed) as Hsearch.
    destruct (run_query be (count_query filters)) as [rc|e] eqn:Hcount.
    + destruct (run_query be (data_query page pageSize filters)) as [rd|e] eqn:Hdata.
      * destruct (error rd) as [e|] eqn:Herr.
        -- rewrite (fetchAllFossils_data_failure be page pageSize filters w rc e)
             in Hrun; [discriminate | assumption | assumption |].
           right. eauto.
        -- rewrite (fetchAllFossils_success_plain be page pageSize filters w rc rd)
             in Hrun; [| assumption | assumption | assumption | split; assumption].
           injection Hrun as <- <-. cbn. rewrite lookup_insert_eq. auto.
      * rewrite (fetchAllFossils_data_failure be page pageSize filters w rc e)
          in Hrun; [discriminate | assumption | assumption |].
        left. assumption.
    + rewrite (fetchAllFossils_miss be page pageSize filters w Hmiss) in Hrun.
      unfold count_query in Hcount. unfold_async. revert Hrun. unfold_async.
      rewrite Hcount. discriminate.
Qed.

(** C2, as amended.  For every filter value in which no property is set
    (no filters at all, or a query, species, location, tag list and dates
    that are all absent or empty) and every page: after a call that
    completed normally, a second call with the same page and filters
    returns the same pair, makes no remote call and leaves the state as it
    was, whatever the backend would answer. *)
Theorem fetchAllFossils_repeat_served_from_cache
    (be be' : Backend) (page pageSize : Z) (filters : option SearchFilters)
    (w w1 : World) (r : PageResult) :
  cache_lookup_allowed filters = true ->
  fetchAllFossils be page pageSize filters w = (Normal r, w1) ->
  fetchAllFossils be' page pageSize filters w1 = (Normal r, w1).
Proof.
  intros Hallowed Hrun.
  destruct (fetchAllFossils_normal_cached be page pageSize filters w w1 r Hallowed Hrun)
    as [Hget [Hlist Hcount]].
  rewrite (fetchAllFossils_hit be' page pageSize filters w1 r Hallowed Hget).
  destruct w1 as [[] calls]. cbn in *. subst. reflexivity.
Qed.

(** A first fetch with the empty filter object, repeated against a backend
    that is down: the page comes from the cache. *)
Lemma fetchAllFossils_repeat_served_from_cache_witness :
  let be := table_backend [trilobite; ammonite] None in
  let w1 := (run (fetchAllFossils be 1 12 (Some no_filters)) initial_state).2 in
  fetchAllFossils (failing_backend (Js.ErrorInstance "offline") None)
                  1 12 (Some no_filters) w1
  = (Normal (mkPage [trilobite; ammonite] 2), w1).
Proof.
  intros be w1.
  apply (fetchAllFossils_repeat_served_from_cache be
           (failing_backend (Js.ErrorInstance "offline") None)
           1 12 (Some no_filters) (mkWorld initial_state [])).
  - reflexivity.
  - vm_compute. reflexivity.
Defined.

(** C2, the claim as stated fails: with a species filter and no search
    query, a repeated call with the same page and filters queries the
    backend again. *)
Lemma fetchAllFossils_repeat_with_species_refetches :
  let be := table_backend [trilobite] None in
  let filters := Some (mkFilters None (Some "Trilobite") None None None None) in
  exists r w1 r2 w2,
    has_searchQuery filters = false /\
    run (fetchAllFossils be 1 12 filters) initial_state = (Normal r, w1) /\
    fetchAllFossils be 1 12 filters w1 = (r2, w2) /\
    w_calls w2 = (w_calls w1 ++ [CallQuery (count_query filters);
                                CallQuery (data_query 1 12 filters)])%list /\
    w_calls w2 <> w_calls w1.
Proof.
  do 4 eexists. split; [reflexivity|]. split; [vm_compute; reflexivity|].
  split; [vm_compute; reflexivity|]. split; [reflexivity | discriminate].
Qed.

(** C4, as amended.  On a cache miss whose count query resolves, the data
    query that follows is the filtered selection ordered by creation
    timestamp, descending, and by nothing else; the ordering is chained
    before the pagination range. *)
Theorem data_query_ordered_by_created_at
    (be : Backend) (page pageSize : Z) (filters : option SearchFilters)
    (w : World) (rc : Response) :
  cache_miss page filters (w_state w) ->
  run_query be (count_query filters) = Resolved rc ->
  exists q rest,
    w_calls (fetchAllFossils be page pageSize filters w).2 =
      (w_calls w ++ CallQuery (count_query filters) :: CallQuery q :: rest)%list /\
    orderings q = [("created_at", false)] /\
    q_clauses q =
      (q_clauses (applyFilters select_all (removeSearchQuery filters)) ++
       [Order "created_at" false;
        Range ((page - 1) * pageSize) ((page - 1) * pageSize + pageSize - 1)])%list.
Proof.
  intros Hmiss Hcount.
  destruct (fetchAllFossils_miss_data_call be page pageSize filters w rc Hmiss Hcount)
    as [rest Hcalls].
  exists (data_query page pageSize filters), rest. split; [exact Hcalls|]. split.
  - unfold data_query. rewrite !orderings_chain, orderings_applyFilters. reflexivity.
  - unfold data_query. rewrite !q_clauses_chain, <- app_assoc. reflexivity.
Qed.

(** The first fetch of the home page. *)
Lemma data_query_ordered_by_created_at_witness :
  exists q rest,
    w_calls (fetchAllFossils (table_backend [trilobite; ammonite] None) 1 12 None
               (mkWorld initial_state [])).2 =
      ([] ++ CallQuery (count_query None) :: CallQuery q :: rest)%list /\
    orderings q = [("created_at", false)] /\
    q_clauses q =
      (q_clauses (applyFilters select_all (removeSearchQuery None)) ++
       [Order "created_at" false; Range ((1 - 1) * 12) ((1 - 1) * 12 + 12 - 1)])%list.
Proof.
  apply (data_query_ordered_by_created_at (table_backend [trilobite; ammonite] None)
           1 12 None (mkWorld initial_state [])
           (mkResponse None (Some 2) None)).
  - reflexivity.
  - reflexivity.
Defined.

(** C4, the claim as stated fails: the data query of a first fetch is not
    ordered by discovery date and then creation timestamp. *)
Lemma data_query_not_ordered_by_discovery_date :
  exists q,
    nth_error
      (w_calls (run (fetchAllFossils (table_backend [trilobite; ammonite] None)
                       1 12 None) initial_state).2) 1
    = Some (CallQuery q) /\
    orderings q = [("created_at", false)] /\
    orderings q <> [("discovery_date", false); ("created_at", false)].
Proof. eexists. split; [reflexivity|]. split; [reflexivity | discriminate]. Qed.

Lemma slice_length_last_page {A} (l : list A) :
  length l = 25%nat -> length (Js.slice l ((3 - 1) * 12) ((3 - 1) * 12 + 12)) = 1%nat.
Proof.
  intros Hlen. unfold Js.slice, Js.rel_index.
  rewrite length_firstn, length_skipn, Hlen. vm_compute. reflexivity.
Qed.

Lemma range_of_data_query (page pageSize : Z) (filters : option SearchFilters) :
  range_of (data_query page pageSize filters) =
  Some ((page - 1) * pageSize, (page - 1) * pageSize + pageSize - 1).
Proof.
  unfold range_of, data_query. rewrite q_clauses_chain, fold_left_app. reflexivity.
Qed.

(** C5. For every page and page size, the data query of [fetchAllFossils]
    asks for the inclusive range from [(page - 1) * pageSize] to that offset
    plus [pageSize - 1]; for a positive page size and a non-negative count,
    [Math.ceil(totalCount / pageSize)] is the least number of pages that
    hold the count; the [totalPages] of the home page is that number for
    every non-negative count and its page size of 12, so 0 pages for 0
    fossils and 3 pages for 25 fossils, and page 3 of 25 fossils, fetched
    from the backend or sliced from a refined list, holds exactly one. *)
Theorem pagination_calculator (page pageSize : Z) :
  1 <= page -> 0 < pageSize ->
  (forall be filters w rc,
      cache_miss page filters (w_state w) ->
      run_query be (count_query filters) = Resolved rc ->
      exists q rest,
        w_calls (fetchAllFossils be page pageSize filters w).2 =
          (w_calls w ++ CallQuery (count_query filters) :: CallQuery q :: rest)%list /\
        range_of q =
          Some ((page - 1) * pageSize, (page - 1) * pageSize + pageSize - 1)) /\
  (forall totalCount, 0 <= totalCount ->
      let n := Js.ceil_div totalCount pageSize in
      0 <= n /\ totalCount <= n * pageSize < totalCount + pageSize) /\
  (forall totalCount, 0 <= totalCount ->
      totalPages totalCount = Js.ceil_div totalCount FOSSILS_PER_PAGE /\
      0 <= totalPages totalCount /\
      totalCount <= totalPages totalCount * FOSSILS_PER_PAGE
        < totalCount + FOSSILS_PER_PAGE) /\
  totalPages 0 = 0 /\
  totalPages 25 = 3 /\
  (forall rows : list Fossil, length rows = 25%nat ->
      exists p w,
        run (fetchAllFossils (table_backend rows None) 3 FOSSILS_PER_PAGE None)
            initial_state = (Normal p, w) /\
        totalCount p = 25 /\ length (fossils p) = 1%nat) /\
  (forall refined : list Fossil, length refined = 25%nat ->
      length (Js.slice refined ((3 - 1) * FOSSILS_PER_PAGE)
                ((3 - 1) * FOSSILS_PER_PAGE + FOSSILS_PER_PAGE)) = 1%nat).
Proof.
  intros Hpage Hsize. split; [|split; [|split; [|split; [|split; [|split]]]]].
  - intros be filters w rc Hmiss Hcount.
    destruct (fetchAllFossils_miss_data_call be page pageSize filters w rc Hmiss Hcount)
      as [rest Hcalls].
    exists (data_query page pageSize filters), rest.
    split; [exact Hcalls | apply range_of_data_query].
  - intros total Htotal n. pose proof (ceil_div_least total pageSize Hsize) as Hn.
    fold n in Hn. split; [nia | exact Hn].
  - intros total Htotal. split; [reflexivity|].
    pose proof (ceil_div_least total FOSSILS_PER_PAGE ltac:(reflexivity)) as Hn.
    unfold totalPages. unfold FOSSILS_PER_PAGE in *. split; [nia | exact Hn].
  - reflexivity.
  - reflexivity.
  - intros rows Hlen. eexists _, _. split.
    + unfold run.
      apply (fetchAllFossils_success_plain (table_backend rows None) 3 FOSSILS_PER_PAGE
               None (mkWorld initial_state [])
               (mkResponse None (Some (Z.of_nat (length rows))) None)
               (mkResponse (Some (Js.slice rows ((3 - 1) * 12) ((3 - 1) * 12 + 12)))
                           None None));
        try reflexivity. split; reflexivity.
    + cbn. rewrite Hlen. split; [reflexivity | now apply slice_length_last_page].
  - intros refined Hlen. now apply slice_length_last_page.
Qed.

(** Page 2 of the home page, the page count of 25 fossils, and the
    [totalPages] of 13 fossils. *)
Lemma pagination_calculator_witness :
  (exists q rest,
      w_calls (fetchAllFossils (table_backend [trilobite; ammonite] None) 2 12 None
                 (mkWorld initial_state [])).2 =
        ([] ++ CallQuery (count_query None) :: CallQuery q :: rest)%list /\
      range_of q = Some ((2 - 1) * 12, (2 - 1) * 12 + 12 - 1)) /\
  (let n := Js.ceil_div 25 12 in 0 <= n /\ 25 <= n * 12 < 25 + 12) /\
  (totalPages 13 = Js.ceil_div 13 FOSSILS_PER_PAGE /\
   0 <= totalPages 13 /\
   13 <= totalPages 13 * FOSSILS_PER_PAGE < 13 + FOSSILS_PER_PAGE).
Proof.
  pose proof (pagination_calculator 2 12 ltac:(lia) ltac:(lia))
    as [Hrange [Hceil [Hpages _]]].
  split; [|split].
  - apply (Hrange (table_backend [trilobite; ammonite] None) None
             (mkWorld initial_state []) (mkResponse None (Some 2) None));
      reflexivity.
  - apply (Hceil 25). lia.
  - apply (Hpages 13). lia.
Defined.

(** C6, as amended.  On a cache miss, when the count query has resolved
    and the data query fails (its promise rejects, or it resolves with an
    error), [fetchAllFossils] rethrows the failure, leaves in [errorAll] the
    message of the failure when it is an [Error] and the text
    "Failed to load fossils" when it is any other value, leaves [loadingAll]
    reset, and changes nothing else: the list, the count and the cache are
    as before. *)
Theorem fetchAllFossils_failure_recorded_and_rethrown
    (be : Backend) (page pageSize : Z) (filters : option SearchFilters)
    (w : World) (rc : Response) (e : Js.Thrown) :
  cache_miss page filters (w_state w) ->
  run_query be (count_query filters) = Resolved rc ->
  query_fails be (data_query page pageSize filters) e ->
  exists w',
    fetchAllFossils be page pageSize filters w = (Abrupt e, w') /\
    errorAll (w_state w') = getErrorMessage e /\
    (forall m, e = Js.ErrorInstance m -> errorAll (w_state w') = m) /\
    (forall payload, e = Js.OtherValue payload ->
       errorAll (w_state w') = "Failed to load fossils") /\
    loadingAll (w_state w') = false /\
    allFossils (w_state w') = allFossils (w_state w) /\
    allFossilsCount (w_state w') = allFossilsCount (w_state w) /\
    allFossilsCache (w_state w') = allFossilsCache (w_state w) /\
    w_state w' =
      with_loadingAll false
        (with_errorAll
           match e with
           | Js.ErrorInstance m => m
           | Js.OtherValue _ => "Failed to load fossils"
           end (w_state w)).
Proof.
  intros Hmiss Hcount Hfail. eexists. split.
  - apply (fetchAllFossils_data_failure be page pageSize filters w rc e);
      assumption.
  - cbn. split; [reflexivity|]. split; [now intros m ->|].
    split; [now intros payload ->|]. repeat split.
Qed.

(** A first fetch against a backend whose data query is refused with an
    [Error], and one refused with an error object that is no [Error]. *)
Lemma fetchAllFossils_failure_recorded_and_rethrown_witness :
  exists w',
    fetchAllFossils (failing_backend (Js.ErrorInstance "permission denied") None)
                    1 12 None (mkWorld initial_state [])
    = (Abrupt (Js.ErrorInstance "permission denied"), w') /\
    errorAll (w_state w') = "permission denied" /\
    loadingAll (w_state w') = false /\
    allFossils (w_state w') = [] /\
    allFossilsCount (w_state w') = 0 /\
    allFossilsCache (w_state w') = ∅ /\
    exists w'',
      fetchAllFossils (failing_backend (Js.OtherValue "permission denied") None)
                      1 12 None (mkWorld initial_state [])
      = (Abrupt (Js.OtherValue "permission denied"), w'') /\
      errorAll (w_state w'') = "Failed to load fossils".
Proof.
  destruct (fetchAllFossils_failure_recorded_and_rethrown
              (failing_backend (Js.ErrorInstance "permission denied") None)
              1 12 None (mkWorld initial_state [])
              (mkResponse None (Some 0) None) (Js.ErrorInstance "permission denied"))
    as [w' [Hrun [_ [Herr [_ [Hload [Hlist [Hcount [Hcache _]]]]]]]]].
  - reflexivity.
  - reflexivity.
  - right. eexists. split; reflexivity.
  - destruct (fetchAllFossils_failure_recorded_and_rethrown
                (failing_backend (Js.OtherValue "permission denied") None)
                1 12 None (mkWorld initial_state [])
                (mkResponse None (Some 0) None) (Js.OtherValue "permission denied"))
      as [w'' [Hrun' [_ [_ [Hdefault _]]]]].
    + reflexivity.
    + reflexivity.
    + right. eexists. split; reflexivity.
    + exists w'. split; [exact Hrun|]. split; [now apply Herr|].
      repeat (split; [assumption|]).
      exists w''. split; [exact Hrun' | now apply (Hdefault "permission denied")].
Defined.

(** C6, the claim as stated fails: when the data query resolves with an
    error object that is not an [Error], the text left in [errorAll] is the
    default text of [getErrorMessage], not the message that the failure
    carries. *)
Lemma fetchAllFossils_plain_failure_records_default_text :
  let e := Js.OtherValue "permission denied for table fossils" in
  exists w',
    fetchAllFossils (failing_backend e None) 1 12 None (mkWorld initial_state [])
    = (Abrupt e, w') /\
    carried_message e = "permission denied for table fossils" /\
    errorAll (w_state w') = "Failed to load fossils" /\
    errorAll (w_state w') <> carried_message e.
Proof.
  eexists. split; [reflexivity|]. split; [reflexivity|].
  split; [reflexivity | discriminate].
Qed.

(** ** [clearCache] *)

Lemma clearCache_run (w : World) :
  clearCache w =
    (Normal tt,
     mkWorld
       (with_errorUser ""
          (with_errorAll ""
             (with_userFossilsCached false
                (with_allFossilsCache ∅
                   (with_userFossils [] (with_allFossils [] (w_state w)))))))
       (w_calls w)).
Proof. reflexivity. Qed.


(** ** [fetchUserFossils] *)

Section FetchUser.

Variable be : Backend.
Variable filters : option SearchFilters.

Lemma fetchUserFossils_noop (w : World) :
  answered_by_flag filters (w_state w) = true ->
  fetchUserFossils be filters w = (Normal tt, w).
Proof.
  unfold answered_by_flag, fetchUserFossils. intros Hflag.
  unfold mbind at 1, Async_bind, get_state. cbv zeta. rewrite Hflag. reflexivity.
Qed.

Lemma fetchUserFossils_fresh (w : World) :
  answered_by_flag filters (w_state w) = false ->
  fetchUserFossils be filters w =
    try_catch_finally
      (fetchUserFossils_try be filters)
      (fun err => setErrorUser (getErrorMessage err))
      (setLoadingUser false) w.
Proof.
  unfold answered_by_flag, fetchUserFossils. intros Hflag.
  unfold mbind at 1, Async_bind, get_state. cbv zeta. rewrite Hflag. reflexivity.
Qed.

Lemma fetchUserFossils_no_user (w : World) :
  answered_by_flag filters (w_state w) = false ->
  getUser be = Resolved None ->
  fetchUserFossils be filters w =
    (Normal tt,
     mkWorld (with_loadingUser false (with_errorUser must_be_logged_in (w_state w)))
             (w_calls w ++ [CallGetUser])).
Proof.
  intros Hflag Huser. rewrite (fetchUserFossils_fresh w Hflag).
  unfold_async. rewrite Huser. reflexivity.
Qed.

Lemma fetchUserFossils_auth_rejected (w : World) (e : Js.Thrown) :
  answered_by_flag filters (w_state w) = false ->
  getUser be = Rejected e ->
  fetchUserFossils be filters w =
    (Normal tt,
     mkWorld (with_loadingUser false (with_errorUser (getErrorMessage e) (w_state w)))
             (w_calls w ++ [CallGetUser])).
Proof.
  intros Hflag Huser. rewrite (fetchUserFossils_fresh w Hflag).
  unfold_async. rewrite Huser. reflexivity.
Qed.

Lemma fetchUserFossils_query_failure (w : World) (user : string) (e : Js.Thrown) :
  answered_by_flag filters (w_state w) = false ->
  getUser be = Resolved (Some user) ->
  query_fails be (user_query user filters) e ->
  fetchUserFossils be filters w =
    (Normal tt,
     mkWorld (with_loadingUser false (with_errorUser (getErrorMessage e) (w_state w)))
             (w_calls w ++ [CallGetUser; CallQuery (user_query user filters)])).
Proof.
  intros Hflag Huser Hfail. rewrite (fetchUserFossils_fresh w Hflag).
  unfold user_query, query_fails in *. unfold_async. rewrite Huser.
  cbn [w_state w_calls].
  destruct Hfail as [Hrej | [r [Hres Herr]]].
  - rewrite Hrej. rewrite <- app_assoc. reflexivity.
  - rewrite Hres, Herr. rewrite <- app_assoc. reflexivity.
Qed.

Lemma fetchUserFossils_success (w : World) (user : string) (r : Response) :
  answered_by_flag filters (w_state w) = false ->
  getUser be = Resolved (Some user) ->
  query_succeeds be (user_query user filters) r ->
  let rows := default [] (data r) in
  let shown := if has_searchQuery filters then filterFossils rows filters else rows in
  fetchUserFossils be filters w =
    (Normal tt,
     mkWorld
       (with_loadingUser false
          (with_userFossilsFilters filters
             (with_userFossilsCached true
                (with_userFossils shown (with_errorUser "" (w_state w))))))
       (w_calls w ++ [CallGetUser; CallQuery (user_query user filters)])).
Proof.
  intros Hflag Huser [Hres Herr]. rewrite (fetchUserFossils_fresh w Hflag).
  unfold user_query in *. unfold_async. rewrite Huser.
  cbn [w_state w_calls]. rewrite Hres, Herr. rewrite <- app_assoc. reflexivity.
Qed.

(** The promise of [fetchUserFossils] always resolves. *)
Lemma fetchUserFossils_resolves (w : World) :
  exists w', fetchUserFossils be filters w = (Normal tt, w').
Proof.
  destruct (answered_by_flag filters (w_state w)) eqn:Hflag.
  - eexists. now apply fetchUserFossils_noop.
  - destruct (getUser be) as [[user|]|e] eqn:Huser.
    + destruct (run_query be (user_query user filters)) as [r|e] eqn:Hq.
      * destruct (error r) as [e|] eqn:Herr.
        -- eexists. apply (fetchUserFossils_query_failure w user e); auto.
           right. eauto.
        -- eexists. apply (fetchUserFossils_success w user r); auto. now split.
      * eexists. apply (fetchUserFossils_query_failure w user e); auto. now left.
    + eexists. now apply fetchUserFossils_no_user.
    + eexists. now apply (fetchUserFossils_auth_rejected w e).
Qed.

End FetchUser.

(** After a call against a backend that has a user and answers the query,
    the flag is set and the stored filters print as the argument does. *)
Lemma fetchUserFossils_after_success
    (be : Backend) (filters : option SearchFilters) (w w1 : World)
    (user : string) (r : Response) :
  getUser be = Resolved (Some user) ->
  query_succeeds be (user_query user filters) r ->
  fetchUserFossils be filters w = (Normal tt, w1) ->
  userFossilsCached (w_state w1) = true /\
  JSON_stringify (userFossilsFilters (w_state w1)) = JSON_stringify filters.
Proof.
  intros Huser Hq Hrun.
  destruct (answered_by_flag filters (w_state w)) eqn:Hflag.
  - rewrite (fetchUserFossils_noop be filters w Hflag) in Hrun.
    injection Hrun as <-. unfold answered_by_flag in Hflag.
    apply andb_true_iff in Hflag as [Hcached Hsame].
    apply bool_decide_eq_true in Hsame. auto.
  - rewrite (fetchUserFossils_success be filters w user r Hflag Huser Hq) in Hrun.
    injection Hrun as <-. cbn. auto.
Qed.

(** C8, as amended.  After a [fetchUserFossils] call against a backend
    that has a user and answers the query, a call whose filters print as
    those of the first is a no-op: no remote call, no state change.  A call
    whose filters print differently asks the backend again, starting with
    the auth call, and when that backend too has a user and answers the
    query, the call stores the new list, sets the flag and replaces the
    stored filters by its argument. *)
Theorem fetchUserFossils_repeat
    (be be' : Backend) (filters filters' : option SearchFilters) (w w1 : World)
    (user : string) (r : Response) :
  getUser be = Resolved (Some user) ->
  query_succeeds be (user_query user filters) r ->
  fetchUserFossils be filters w = (Normal tt, w1) ->
  (JSON_stringify filters' = JSON_stringify filters ->
   fetchUserFossils be' filters' w1 = (Normal tt, w1)) /\
  (JSON_stringify filters' <> JSON_stringify filters ->
   (exists rest,
       w_calls (fetchUserFossils be' filters' w1).2 =
       (w_calls w1 ++ CallGetUser :: rest)%list) /\
   (forall user' r',
       getUser be' = Resolved (Some user') ->
       query_succeeds be' (user_query user' filters') r' ->
       exists w2,
         fetchUserFossils be' filters' w1 = (Normal tt, w2) /\
         w_calls w2 =
           (w_calls w1 ++ [CallGetUser; CallQuery (user_query user' filters')])%list /\
         userFossils (w_state w2) =
           (if has_searchQuery filters'
            then filterFossils (default [] (data r')) filters'
            else default [] (data r')) /\
         userFossilsCached (w_state w2) = true /\
         userFossilsFilters (w_state w2) = filters')).
Proof.
  intros Huser Hq Hrun.
  destruct (fetchUserFossils_after_success be filters w w1 user r Huser Hq Hrun)
    as [Hcached Hstored].
  split.
  - intros Hsame. apply fetchUserFossils_noop. unfold answered_by_flag.
    rewrite Hcached, Hstored. cbn. now apply bool_decide_eq_true.
  - intros Hdiff.
    assert (Hflag : answered_by_flag filters' (w_state w1) = false).
    { unfold answered_by_flag. rewrite Hcached, Hstored. cbn.
      now apply bool_decide_eq_false. }
    split.
    + rewrite (fetchUserFossils_fresh be' filters' w1 Hflag). unfold_async.
      destruct (getUser be') as [[user'|]|e]; cbn [w_state w_calls];
        [|eexists; reflexivity|eexists; reflexivity].
      destruct (run_query be' _) as [r'|e]; cbn [w_state w_calls];
        [|eexists; rewrite <- app_assoc; reflexivity].
      destruct (error r'); eexists; rewrite <- app_assoc; reflexivity.
    + intros user' r' Huser' Hq'. eexists. split.
      * apply (fetchUserFossils_success be' filters' w1 user' r' Hflag Huser' Hq').
      * cbn. auto.
Qed.

(** A load without filters, repeated, and then followed by a load with a
    species filter. *)
Lemma fetchUserFossils_repeat_witness :
  let be := table_backend [trilobite] (Some "u1") in
  let species_filter := Some (mkFilters None (Some "Ammonite") None None None None) in
  let w1 := (run (fetchUserFossils be None) initial_state).2 in
  fetchUserFossils be None w1 = (Normal tt, w1) /\
  exists w2,
    fetchUserFossils (table_backend [ammonite] (Some "u1")) species_filter w1
    = (Normal tt, w2) /\
    userFossils (w_state w2) = [ammonite] /\
    userFossilsCached (w_state w2) = true /\
    userFossilsFilters (w_state w2) = species_filter.
Proof.
  intros be species_filter w1.
  destruct (fetchUserFossils_repeat be (table_backend [ammonite] (Some "u1"))
              None species_filter (mkWorld initial_state []) w1 "u1"
              (mkResponse (Some [trilobite]) None None)) as [_ Hfresh];
    [reflexivity | split; reflexivity | reflexivity |].
  split.
  - apply (fetchUserFossils_repeat be be None None (mkWorld initial_state []) w1 "u1"
             (mkResponse (Some [trilobite]) None None));
      [reflexivity | split; reflexivity | reflexivity | reflexivity].
  - destruct Hfresh as [_ Hstore]; [discriminate|].
    destruct (Hstore "u1" (mkResponse (Some [ammonite]) None None))
      as [w2 [Hrun [_ [Hlist [Hcached Hfilters]]]]];
      [reflexivity | split; reflexivity |].
    exists w2. auto.
Defined.

(** C8, the claim as stated fails: after a successful fetch, a call with
    filters that print differently, made when the query fails, does ask the
    backend but overwrites neither the list nor the stored filters. *)
Lemma fetchUserFossils_failed_refetch_keeps_filters :
  let be := table_backend [trilobite] (Some "u1") in
  let down := failing_backend (Js.ErrorInstance "offline") (Some "u1") in
  let species_filter := Some (mkFilters None (Some "Ammonite") None None None None) in
  exists w1 w2,
    run (fetchUserFossils be None) initial_state = (Normal tt, w1) /\
    JSON_stringify species_filter <> JSON_stringify None /\
    fetchUserFossils down species_filter w1 = (Normal tt, w2) /\
    w_calls w2 =
      (w_calls w1 ++ [CallGetUser; CallQuery (user_query "u1" species_filter)])%list /\
    userFossilsCached (w_state w2) = true /\
    userFossilsFilters (w_state w2) = None /\
    userFossilsFilters (w_state w2) <> species_filter /\
    userFossils (w_state w2) = [trilobite].
Proof.
  do 2 eexists. split; [vm_compute; reflexivity|]. split; [discriminate|].
  split; [vm_compute; reflexivity|]. repeat split. discriminate.
Qed.

(** C9, as amended.  When no user is signed in and the call is not
    answered by the loaded flag (the flag is unset, or the filters print
    differently from the stored ones), [fetchUserFossils] leaves the
    "must be logged in" message in [errorUser], makes the auth call and no
    query on the fossils table, and changes nothing else but the loading
    flag, which it leaves reset: the list and the loaded flag are as
    before. *)
Theorem fetchUserFossils_requires_user
    (be : Backend) (filters : option SearchFilters) (w : World) :
  answered_by_flag filters (w_state w) = false ->
  getUser be = Resolved None ->
  exists w',
    fetchUserFossils be filters w = (Normal tt, w') /\
    errorUser (w_state w') = "You must be logged in to view your fossils" /\
    w_calls w' = (w_calls w ++ [CallGetUser])%list /\
    userFossils (w_state w') = userFossils (w_state w) /\
    userFossilsCached (w_state w') = userFossilsCached (w_state w) /\
    w_state w' =
      with_loadingUser false (with_errorUser must_be_logged_in (w_state w)).
Proof.
  intros Hflag Huser. eexists. split.
  - apply (fetchUserFossils_no_user be filters w Hflag Huser).
  - cbn. repeat split.
Qed.

(** A first load of the personal page without a session. *)
Lemma fetchUserFossils_requires_user_witness :
  exists w',
    fetchUserFossils (table_backend [trilobite] None) None (mkWorld initial_state [])
    = (Normal tt, w') /\
    errorUser (w_state w') = "You must be logged in to view your fossils" /\
    w_calls w' = [CallGetUser] /\
    userFossils (w_state w') = [] /\
    userFossilsCached (w_state w') = false.
Proof.
  destruct (fetchUserFossils_requires_user (table_backend [trilobite] None) None
              (mkWorld initial_state []))
    as [w' [Hrun [Herr [Hcalls [Hlist [Hcached _]]]]]].
  - reflexivity.
  - reflexivity.
  - exists w'. auto.
Defined.

(** C9, the claim as stated fails: once the list is loaded, a call with
    the same filters made when no user is signed in returns at the flag and
    records no message. *)
Lemma fetchUserFossils_signed_out_after_load_is_silent :
  let be := table_backend [trilobite] (Some "u1") in
  let signed_out := table_backend [trilobite] None in
  exists w1,
    run (fetchUserFossils be None) initial_state = (Normal tt, w1) /\
    getUser signed_out = Resolved None /\
    fetchUserFossils signed_out None w1 = (Normal tt, w1) /\
    errorUser (w_state w1) = "" /\
    errorUser (w_state w1) <> "You must be logged in to view your fossils".
Proof.
  eexists. split; [vm_compute; reflexivity|]. split; [reflexivity|].
  split; [vm_compute; reflexivity|]. split; [reflexivity | discriminate].
Qed.

(** C10. [fetchUserFossils] never rejects: for every filters argument, every
    backend and every state its promise resolves.  A failure of the auth
    call or of the query is caught: its message goes to [errorUser], the
    loading flag is reset and nothing else changes.  [fetchAllFossils]
    rethrows instead: when its data query fails the call completes
    abruptly with that failure. *)
Theorem fetchUserFossils_never_rejects
    (be : Backend) (filters : option SearchFilters) (w : World) :
  (exists w', fetchUserFossils be filters w = (Normal tt, w')) /\
  (forall e,
      answered_by_flag filters (w_state w) = false ->
      user_fetch_fails be filters e ->
      exists w',
        fetchUserFossils be filters w = (Normal tt, w') /\
        errorUser (w_state w') = getErrorMessage e /\
        loadingUser (w_state w') = false /\
        w_state w' =
          with_loadingUser false (with_errorUser (getErrorMessage e) (w_state w))) /\
  (forall page pageSize rc e,
      cache_miss page filters (w_state w) ->
      run_query be (count_query filters) = Resolved rc ->
      query_fails be (data_query page pageSize filters) e ->
      exists w', fetchAllFossils be page pageSize filters w = (Abrupt e, w')).
Proof.
  split; [apply fetchUserFossils_resolves|]. split.
  - intros e Hflag [Hauth | [user [Huser Hfail]]]; eexists.
    + split; [apply (fetchUserFossils_auth_rejected be filters w e Hflag Hauth)|].
      cbn. auto.
    + split; [apply (fetchUserFossils_query_failure be filters w user e
                       Hflag Huser Hfail)|].
      cbn. auto.
  - intros page pageSize rc e Hmiss Hcount Hfail. eexists.
    apply (fetchAllFossils_data_failure be page pageSize filters w rc e);
      assumption.
Qed.

(** Both operations against a backend whose data queries fail. *)
Lemma fetchUserFossils_never_rejects_witness :
  let down := failing_backend (Js.ErrorInstance "offline") (Some "u1") in
  (exists w',
      fetchUserFossils down None (mkWorld initial_state []) = (Normal tt, w') /\
      errorUser (w_state w') = "offline" /\
      loadingUser (w_state w') = false) /\
  (exists w',
      fetchAllFossils down 1 12 None (mkWorld initial_state [])
      = (Abrupt (Js.ErrorInstance "offline"), w')).
Proof.
  intros down.
  destruct (fetchUserFossils_never_rejects down None (mkWorld initial_state []))
    as [_ [Hcaught Hrethrown]].
  split.
  - destruct (Hcaught (Js.ErrorInstance "offline")) as [w' [Hrun [Herr [Hload _]]]].
    + reflexivity.
    + right. exists "u1". split; [reflexivity|]. right. eexists. split; reflexivity.
    + exists w'. auto.
  - apply (Hrethrown 1 12 (mkResponse None (Some 0) None) (Js.ErrorInstance "offline")).
    + reflexivity.
    + reflexivity.
    + right. eexists. split; reflexivity.
Defined.

(** * Further properties *)

(** ** Trimming and lower-casing *)

Lemma trimStart_clean (s : string) : starts_clean (Js.trimStart s).
Proof.
  induction s as [|c s IH]; simpl; [exact I|].
  destruct (Js.is_space c) eqn:Hc; [exact IH | exact Hc].
Qed.

Lemma trimEnd_clean (s : string) : starts_clean s -> starts_clean (Js.trimEnd s).
Proof.
  destruct s as [|c s]; simpl; [auto|]. intros Hc.
  destruct (Js.trimEnd s); [rewrite Hc|]; exact Hc.
Qed.

Lemma trimStart_of_clean (s : string) : starts_clean s -> Js.trimStart s = s.
Proof. destruct s as [|c s]; simpl; [auto|]. now intros ->. Qed.

Lemma trimEnd_cons (c : ascii) (r : string) :
  Js.trimEnd (String c r) =
  match Js.trimEnd r with
  | EmptyString => if Js.is_space c then EmptyString else String c EmptyString
  | r' => String c r'
  end.
Proof. reflexivity. Qed.

Lemma trimEnd_idem (s : string) : Js.trimEnd (Js.trimEnd s) = Js.trimEnd s.
Proof.
  induction s as [|c s IH]; [reflexivity|]. rewrite trimEnd_cons.
  destruct (Js.trimEnd s) as [|d r] eqn:Hend.
  - destruct (Js.is_space c) eqn:Hc; [reflexivity|].
    rewrite trimEnd_cons. cbn. now rewrite Hc.
  - rewrite trimEnd_cons, IH. reflexivity.
Qed.

Lemma trim_clean (s : string) : starts_clean (Js.trim s).
Proof. apply trimEnd_clean, trimStart_clean. Qed.

Lemma trim_idem (s : string) : Js.trim (Js.trim s) = Js.trim s.
Proof.
  unfold Js.trim at 1. rewrite (trimStart_of_clean _ (trim_clean s)).
  unfold Js.trim. apply trimEnd_idem.
Qed.

Lemma lower_unit_idem (c : ascii) : Js.lower_unit (Js.lower_unit c) = Js.lower_unit c.
Proof. destruct c as [[] [] [] [] [] [] [] []]; reflexivity. Qed.

Lemma toLowerCase_idem (s : string) :
  Js.toLowerCase (Js.toLowerCase s) = Js.toLowerCase s.
Proof. induction s as [|c s IH]; simpl; [reflexivity|]. now rewrite lower_unit_idem, IH. Qed.

Lemma toLowerCase_truthy (s : string) : Js.truthy (Js.toLowerCase s) = Js.truthy s.
Proof. now destruct s. Qed.

(** ** More on the search refiner *)

Lemma list_filter_sublist {A} (p : A -> bool) (l : list A) :
  sublist (List.filter p l) l.
Proof.
  induction l as [|x l IH]; simpl; [constructor|].
  destruct (p x); [now apply sublist_skip | now apply sublist_cons].
Qed.

Lemma list_filter_idem {A} (p : A -> bool) (l : list A) :
  List.filter p (List.filter p l) = List.filter p l.
Proof.
  induction l as [|x l IH]; simpl; [reflexivity|].
  destruct (p x) eqn:Hx; simpl; [rewrite Hx; f_equal|]; exact IH.
Qed.

(** X1. Refining is idempotent and only drops fossils: refining a refined
    list again with the same filters changes nothing, and the refined list
    is a sublist of the input (same fossils, same order, some left out). *)
Theorem filterFossils_idempotent_sublist (l : list Fossil) (filters : option SearchFilters) :
  filterFossils (filterFossils l filters) filters = filterFossils l filters /\
  sublist (filterFossils l filters) l.
Proof.
  unfold filterFossils. destruct filters as [f|]; [|split; reflexivity].
  destruct (searchQuery f) as [q|]; [|split; reflexivity].
  destruct (Js.truthy q); [|split; reflexivity]. simpl.
  destruct (Js.truthy (Js.trim (Js.toLowerCase q))); [|split; reflexivity].
  split; [apply list_filter_idem | apply list_filter_sublist].
Qed.

(** X2. Refining distributes over concatenation: refining a list fetched
    in two parts gives the refined parts, one after the other. *)
Theorem filterFossils_app (l1 l2 : list Fossil) (filters : option SearchFilters) :
  filterFossils (l1 ++ l2) filters =
  (filterFossils l1 filters ++ filterFossils l2 filters)%list.
Proof.
  unfold filterFossils. destruct filters as [f|]; [|reflexivity].
  destruct (searchQuery f) as [q|]; [|reflexivity].
  destruct (Js.truthy q); [|reflexivity]. simpl.
  destruct (Js.truthy (Js.trim (Js.toLowerCase q))); [|reflexivity].
  apply List.filter_app.
Qed.

(** X3. The refiner does not see the case of the query nor the white space
    around it: the query lower-cased, and the query trimmed, select the
    same fossils as the query itself. *)
Theorem filterFossils_query_normalised
    (l : list Fossil) (f : SearchFilters) (q : string) :
  filterFossils l (Some (with_query (Some (Js.toLowerCase q)) f))
  = filterFossils l (Some (with_query (Some q) f)) /\
  filterFossils l (Some (with_query (Some (Js.trim q)) f))
  = filterFossils l (Some (with_query (Some q) f)).
Proof.
  unfold filterFossils, with_query. cbn [searchQuery]. split.
  - rewrite toLowerCase_truthy, toLowerCase_idem. reflexivity.
  - rewrite (trim_lower (Js.trim q)), trim_idem, <- trim_lower.
    destruct (Js.truthy q) eqn:Hq.
    + destruct (Js.truthy (Js.trim q)) eqn:Ht; [reflexivity|]. simpl.
      assert (Js.trim q = EmptyString) as Hblank by now destruct (Js.trim q).
      now rewrite trim_lower, Hblank.
    + destruct q; [reflexivity | discriminate].
Qed.

(** ** The predicate builder *)

Lemma when_clauses (b : bool) (c : Clause) (q : Query) :
  q_clauses (when b c q) = (q_clauses q ++ if b then [c] else [])%list.
Proof. destruct b; simpl; [reflexivity | now rewrite app_nil_r]. Qed.

Lemma when_head (b : bool) (c : Clause) (q : Query) :
  q_table (when b c q) = q_table q /\ q_columns (when b c q) = q_columns q /\
  q_count_head (when b c q) = q_count_head q.
Proof. now destruct b. Qed.

(** X4. The predicate builder only appends, and what it appends depends on
    the filters alone: the table, the selection and the count option of the
    base query are kept, its clauses stay in front, and the clauses added
    are those added to a bare selection.  So the count query and the data
    query of a fetch carry the same predicates: the data query is the count
    query's clauses followed by the ordering and the range. *)
Theorem applyFilters_appends (q : Query) (filters : option SearchFilters) :
  q_table (applyFilters q filters) = q_table q /\
  q_columns (applyFilters q filters) = q_columns q /\
  q_count_head (applyFilters q filters) = q_count_head q /\
  q_clauses (applyFilters q filters) =
    (q_clauses q ++ q_clauses (applyFilters select_all filters))%list /\
  forall page pageSize,
    q_clauses (data_query page pageSize filters) =
      (q_clauses (count_query filters) ++
       [Order "created_at" false;
        Range ((page - 1) * pageSize) ((page - 1) * pageSize + pageSize - 1)])%list.
Proof.
  assert (Hclauses : forall q0 fs,
    q_clauses (applyFilters q0 fs) =
    (q_clauses q0 ++ q_clauses (applyFilters select_all fs))%list).
  { intros q0 [f|]; simpl; [|now rewrite app_nil_r].
    rewrite !when_clauses. cbn [q_clauses select_all app].
    now rewrite <- !app_assoc. }
  split; [|split; [|split; [|split]]].
  - destruct filters as [f|]; [|reflexivity]. unfold applyFilters.
    repeat (etransitivity; [apply when_head|]). reflexivity.
  - destruct filters as [f|]; [|reflexivity]. unfold applyFilters.
    repeat (etransitivity; [apply when_head|]). reflexivity.
  - destruct filters as [f|]; [|reflexivity]. unfold applyFilters.
    repeat (etransitivity; [apply when_head|]). reflexivity.
  - apply Hclauses.
  - intros page pageSize. unfold data_query, count_query.
    rewrite !q_clauses_chain, (Hclauses select_count), <- !app_assoc. reflexivity.
Qed.

(** X5. The search query never reaches the backend: the predicates built
    from a filter value do not depend on its [searchQuery], and building
    them after [removeSearchQuery] or without it gives the same query. *)
Theorem applyFilters_ignores_searchQuery
    (q : Query) (filters : option SearchFilters) (f : SearchFilters)
    (sq : option string) :
  applyFilters q (Some (with_query sq f)) = applyFilters q (Some f) /\
  applyFilters q (removeSearchQuery filters) = applyFilters q filters.
Proof.
  split; [reflexivity|]. destruct filters as [g|]; [|reflexivity].
  unfold removeSearchQuery. now destruct (Js.truthy_opt (searchQuery g)).
Qed.

(** X6. The page cache is consulted exactly for the fetches that use no
    search query and send no predicate: the guard of the lookup holds if
    and only if the filters carry no search query and leave a bare
    selection as it is. *)
Theorem cache_lookup_allowed_iff_unfiltered (filters : option SearchFilters) :
  cache_lookup_allowed filters = true <->
  has_searchQuery filters = false /\ applyFilters select_all filters = select_all.
Proof.
  destruct filters as [f|]; [|now split].
  unfold cache_lookup_allowed, has_searchQuery, applyFilters.
  destruct (Js.truthy_opt (searchQuery f)); cbn [negb andb];
    [split; [discriminate | now intros [? _]]|].
  destruct (Js.truthy_opt (f_species f)), (Js.truthy_opt (f_location f)),
    (nonempty_tags (f_tags f)), (Js.truthy_opt (dateFrom f)),
    (Js.truthy_opt (dateTo f)); cbn;
    (split; [try discriminate; now split | intros [_ H]; try reflexivity;
             apply (f_equal q_clauses) in H; discriminate H]).
Qed.

Lemma cache_lookup_allowed_iff_unfiltered_witness :
  has_searchQuery (Some no_filters) = false /\
  applyFilters select_all (Some no_filters) = select_all.
Proof. apply (cache_lookup_allowed_iff_unfiltered (Some no_filters)). reflexivity. Defined.

(** ** The filter form *)

Lemma truthy_opt_or_undefined (x : string) :
  Js.truthy_opt (FossilSearchFilters.or_undefined x) = Js.truthy x.
Proof. unfold FossilSearchFilters.or_undefined. now destruct x. Qed.

Lemma or_undefined_None (x : string) :
  FossilSearchFilters.or_undefined x = None <-> x = EmptyString.
Proof. unfold FossilSearchFilters.or_undefined. destruct x; simpl; split; congruence. Qed.

Lemma handleApplyFilters_blank (form : FossilSearchFilters.FormState) :
  FossilSearchFilters.handleApplyFilters form = no_filters <-> blank_form form.
Proof.
  unfold FossilSearchFilters.handleApplyFilters, no_filters, blank_form.
  destruct form as [sq sp lo ts df dt]; cbn.
  split.
  - intros [= Hsq Hsp Hlo Hts Hdf Hdt].
    rewrite or_undefined_None in Hsq, Hsp, Hlo, Hdf, Hdt.
    destruct ts; [auto 10 | discriminate].
  - intros (Hsq & Hsp & Hlo & -> & -> & ->). now rewrite Hsq, Hsp, Hlo.
Qed.

(** X7. For the filters that the form builds, the cache lookup is allowed
    exactly when the form is blank (texts empty once trimmed, no tag, no
    date), which is when the form builds the value of the Clear button,
    [{}]; every cached page of the home page is therefore stored under a
    key of the shape [page-N-{}]. *)
Theorem form_filters_cached_iff_blank
    (form : FossilSearchFilters.FormState) (page : Z) :
  (cache_lookup_allowed (Some (FossilSearchFilters.handleApplyFilters form)) = true
   <-> blank_form form) /\
  (blank_form form ->
   FossilSearchFilters.handleApplyFilters form
   = (FossilSearchFilters.handleClearFilters form).2 /\
   buildCacheKey page (Some (FossilSearchFilters.handleApplyFilters form))
   = "page-" +:+ pretty page +:+ "-{}").
Proof.
  split.
  - rewrite <- handleApplyFilters_blank. split.
    + unfold cache_lookup_allowed, FossilSearchFilters.handleApplyFilters, no_filters.
      cbn. rewrite !truthy_opt_or_undefined. intros H.
      repeat (apply andb_true_iff in H as [H ?]).
      repeat match goal with
             | Hn : negb _ = true |- _ => apply negb_true_iff in Hn
             end.
      unfold FossilSearchFilters.or_undefined.
      destruct (FossilSearchFilters.selectedTags form); [|discriminate].
      simpl. now repeat match goal with Hn : Js.truthy _ = false |- _ => rewrite Hn; clear Hn end.
    + now intros ->.
  - intros Hblank. apply handleApplyFilters_blank in Hblank. rewrite Hblank.
    split; reflexivity.
Qed.

Lemma form_filters_cached_iff_blank_witness :
  let form := FossilSearchFilters.mkForm "  " " " "" [] "" "" in
  FossilSearchFilters.handleApplyFilters form = no_filters /\
  buildCacheKey 2 (Some (FossilSearchFilters.handleApplyFilters form)) = "page-2-{}".
Proof.
  intros form.
  destruct (form_filters_cached_iff_blank form 2) as [_ Hkey].
  apply Hkey. repeat split.
Defined.

(** X8. For the filters that the form builds, the search path of the
    fetches and the refiner agree: when the value carries a search query
    the refiner keeps exactly the fossils that match the trimmed,
    lower-cased text of the form, a term that is not empty; when it carries
    none the refiner keeps every fossil. *)
Theorem form_filters_refine (form : FossilSearchFilters.FormState) (l : list Fossil) :
  let filters := Some (FossilSearchFilters.handleApplyFilters form) in
  let term := Js.toLowerCase (Js.trim (FossilSearchFilters.searchQuery form)) in
  (has_searchQuery filters = true ->
   term <> EmptyString /\ filterFossils l filters = List.filter (matchesSearch term) l) /\
  (has_searchQuery filters = false -> filterFossils l filters = l).
Proof.
  cbn zeta. unfold has_searchQuery, filterFossils.
  unfold FossilSearchFilters.handleApplyFilters. cbn [searchQuery].
  rewrite truthy_opt_or_undefined. unfold FossilSearchFilters.or_undefined.
  destruct (Js.truthy (Js.trim (FossilSearchFilters.searchQuery form))) eqn:Ht.
  - split; [intros _ | discriminate]. cbn.
    rewrite trim_lower, trim_idem, toLowerCase_truthy, Ht. cbn. split; [|reflexivity].
    destruct (Js.trim (FossilSearchFilters.searchQuery form)); discriminate.
  - split; [discriminate | reflexivity].
Qed.

Lemma form_filters_refine_witness :
  let form := FossilSearchFilters.mkForm " Utah " "" "" [] "" "" in
  filterFossils [trilobite; ammonite]
    (Some (FossilSearchFilters.handleApplyFilters form))
  = List.filter (matchesSearch "utah") [trilobite; ammonite].
Proof.
  intros form.
  destruct (form_filters_refine form [trilobite; ammonite]) as [Hsearch _].
  apply Hsearch. reflexivity.
Defined.

(** X9. Clicking a tag flips its selection and no other: after
    [toggleTag] the tag is selected exactly when it was not, every other tag
    is selected exactly when it was, and a selection without repetition
    stays without repetition. *)
Theorem toggleTag_flips (tag : string) (prev : list string) :
  (In tag (FossilSearchFilters.toggleTag tag prev) <-> ~ In tag prev) /\
  (forall other, other <> tag ->
     (In other (FossilSearchFilters.toggleTag tag prev) <-> In other prev)) /\
  (List.NoDup prev -> List.NoDup (FossilSearchFilters.toggleTag tag prev)).
Proof.
  unfold FossilSearchFilters.toggleTag.
  destruct (existsb (String.eqb tag) prev) eqn:Hex.
  - apply existsb_exists in Hex as [x [Hin Heq]]. apply String.eqb_eq in Heq. subst x.
    split; [|split].
    + rewrite filter_In, negb_true_iff, String.eqb_neq. tauto.
    + intros other Hne. rewrite filter_In, negb_true_iff, String.eqb_neq. tauto.
    + apply List.NoDup_filter.
  - assert (Hnot : ~ In tag prev).
    { intros Hin. apply Bool.not_true_iff_false in Hex. apply Hex.
      apply existsb_exists. exists tag. split; [exact Hin | apply String.eqb_refl]. }
    split; [|split].
    + rewrite in_app_iff. simpl. tauto.
    + intros other Hne. rewrite in_app_iff. simpl. intuition congruence.
    + intros Hnd. apply List.NoDup_app.
      * exact Hnd.
      * constructor; [intros [] | constructor].
      * intros x Hx [<-|[]]. contradiction.
Qed.

Lemma toggleTag_flips_witness :
  List.NoDup (FossilSearchFilters.toggleTag "jurassic" ["paleozoic"; "jurassic"]).
Proof.
  apply (toggleTag_flips "jurassic" ["paleozoic"; "jurassic"]).
  repeat constructor; simpl; intuition discriminate.
Defined.

(** X10. The Clear button is offered whenever applying the form would
    filter: if [handleApplyFilters] builds anything but [{}], then
    [hasActiveFilters] holds. *)
Theorem hasActiveFilters_when_filtering (form : FossilSearchFilters.FormState) :
  FossilSearchFilters.handleApplyFilters form <> no_filters ->
  FossilSearchFilters.hasActiveFilters form = true.
Proof.
  intros Hne. destruct (FossilSearchFilters.hasActiveFilters form) eqn:Hactive;
    [reflexivity|]. exfalso. apply Hne. apply handleApplyFilters_blank.
  unfold FossilSearchFilters.hasActiveFilters in Hactive.
  repeat (apply orb_false_iff in Hactive as [Hactive ?]).
  unfold blank_form.
  repeat match goal with
         | H : Js.truthy ?x = false |- _ =>
             assert (x = EmptyString) as -> by (now destruct x); clear H
         end.
  destruct (FossilSearchFilters.selectedTags form); [|discriminate].
  repeat split.
Qed.

Lemma hasActiveFilters_when_filtering_witness :
  FossilSearchFilters.hasActiveFilters
    (FossilSearchFilters.mkForm "" "" "" ["jurassic"] "" "") = true.
Proof. apply hasActiveFilters_when_filtering. discriminate. Defined.

(** ** The page buttons *)

(** The buttons are the [n] consecutive numbers from [first]. *)
Lemma pageButtons_window (currentPage totalPages : Z) :
  1 <= currentPage <= totalPages ->
  let n := Z.min 5 totalPages in
  exists first,
    Home.pageButtons currentPage totalPages
    = map (fun i => first + Z.of_nat i) (seq 0 (Z.to_nat n)) /\
    1 <= first /\ first <= currentPage < first + n /\ first + n - 1 <= totalPages.
Proof.
  intros Hrange n. unfold Home.pageButtons, Home.pageNum. subst n.
  destruct (totalPages <=? 5) eqn:H5; [apply Z.leb_le in H5 | apply Z.leb_gt in H5].
  - exists 1. split; [apply map_ext; intros; lia | lia].
  - destruct (currentPage <=? 3) eqn:H3; [apply Z.leb_le in H3 | apply Z.leb_gt in H3].
    + exists 1. split; [apply map_ext; intros; lia | lia].
    + destruct (currentPage >=? totalPages - 2) eqn:Hend;
        [apply Z.geb_le in Hend | rewrite Z.geb_leb in Hend; apply Z.leb_gt in Hend].
      * exists (totalPages - 4). split; [apply map_ext; intros; lia | lia].
      * exists (currentPage - 2). split; [apply map_ext; intros; lia | lia].
Qed.

(** X11. The home page shows page buttons only when its list of fossils
    is not empty and there is more than one page: with an empty list, or
    with one page or none, it shows no button.  When it shows them on a
    page within range, the buttons are those of [Home.pageButtons]:
    consecutive numbers, five of them or as many as there are pages, all
    within range, and the current page is one of them. *)
Theorem pageButtons_consecutive_in_range
    (fossils : list Fossil) (currentPage totalPages : Z) :
  (fossils = [] \/ totalPages <= 1 ->
     Home.shownPageButtons fossils currentPage totalPages = []) /\
  (fossils <> [] -> 1 < totalPages -> 1 <= currentPage <= totalPages ->
     Home.shownPageButtons fossils currentPage totalPages
     = Home.pageButtons currentPage totalPages /\
     length (Home.shownPageButtons fossils currentPage totalPages)
     = Z.to_nat (Z.min 5 totalPages) /\
     (2 <= length (Home.shownPageButtons fossils currentPage totalPages) <= 5)%nat /\
     In currentPage (Home.shownPageButtons fossils currentPage totalPages) /\
     (forall b, In b (Home.shownPageButtons fossils currentPage totalPages) ->
        1 <= b <= totalPages) /\
     (forall k b,
        nth_error (Home.shownPageButtons fossils currentPage totalPages) (S k) = Some b ->
        nth_error (Home.shownPageButtons fossils currentPage totalPages) k
        = Some (b - 1))).
Proof.
  split.
  - unfold Home.shownPageButtons, Home.paginationShown.
    intros [-> | Hone]; [reflexivity|].
    destruct (totalPages >? 1) eqn:Hgt; [apply Z.gtb_lt in Hgt; lia|].
    now rewrite andb_false_r.
  - intros Hsome Hmany Hrange.
    assert (Hshown : Home.shownPageButtons fossils currentPage totalPages
                     = Home.pageButtons currentPage totalPages).
    { unfold Home.shownPageButtons, Home.paginationShown.
      destruct fossils as [|x rest]; [congruence|].
      destruct (totalPages >? 1) eqn:Hgt; [reflexivity|].
      rewrite Z.gtb_ltb in Hgt. apply Z.ltb_ge in Hgt. lia. }
    rewrite Hshown. split; [reflexivity|].
    destruct (pageButtons_window currentPage totalPages Hrange) as [first [-> Hfirst]].
    cbn zeta in Hfirst. split; [|split; [|split; [|split]]].
    + now rewrite length_map, length_seq.
    + rewrite length_map, length_seq. lia.
    + apply in_map_iff. exists (Z.to_nat (currentPage - first)).
      split; [lia|]. apply in_seq. lia.
    + intros b Hb. apply in_map_iff in Hb as [i [<- Hi]]. apply in_seq in Hi. lia.
    + intros k b Hk. rewrite nth_error_map in *.
      destruct (nth_error (seq 0 _) (S k)) as [i|] eqn:Hi; [|discriminate].
      injection Hk as <-.
      assert (Hlen : (S k < Z.to_nat (Z.min 5 totalPages))%nat).
      { pose proof (proj1 (nth_error_Some (seq 0 (Z.to_nat (Z.min 5 totalPages))) (S k))
                      ltac:(congruence)) as Hlt.
        now rewrite length_seq in Hlt. }
      rewrite nth_error_seq in Hi. rewrite nth_error_seq.
      destruct (Nat.ltb_spec (S k) (Z.to_nat (Z.min 5 totalPages))); [|lia].
      destruct (Nat.ltb_spec k (Z.to_nat (Z.min 5 totalPages))); [|lia].
      injection Hi as <-. cbn. f_equal. lia.
Qed.

(** Page 7 of 10 with a fossil in the list; a single page; an empty list. *)
Lemma pageButtons_consecutive_in_range_witness :
  (Home.shownPageButtons [trilobite] 7 10 = [5; 6; 7; 8; 9] /\
   length (Home.shownPageButtons [trilobite] 7 10) = 5%nat /\
   In 7 (Home.shownPageButtons [trilobite] 7 10)) /\
  Home.shownPageButtons [trilobite] 1 1 = [] /\
  Home.shownPageButtons [] 7 10 = [].
Proof.
  split; [|split].
  - destruct (pageButtons_consecutive_in_range [trilobite] 7 10) as [_ Hshown].
    destruct Hshown as [Heq [Hlen [_ [Hin _]]]]; [discriminate | lia | lia |].
    split; [rewrite Heq; reflexivity | split; assumption].
  - apply (pageButtons_consecutive_in_range [trilobite] 1 1). right. lia.
  - apply (pageButtons_consecutive_in_range [] 7 10). left. reflexivity.
Defined.

(** X12. From a page within the page count of the home page, the Previous
    button, the Next button and every page button lead to a page within
    the page count, and every such page starts at a row that exists: its
    offset is below the total count. *)
Theorem home_navigation_stays_in_range (totalCount currentPage : Z) :
  0 <= totalCount ->
  1 <= currentPage <= totalPages totalCount ->
  let lands p := 1 <= p <= totalPages totalCount /\
                 (p - 1) * FOSSILS_PER_PAGE < totalCount in
  lands (Home.previousPage currentPage) /\
  lands (Home.nextPage (totalPages totalCount) currentPage) /\
  forall b, In b (Home.pageButtons currentPage (totalPages totalCount)) -> lands b.
Proof.
  intros Hcount Hrange lands.
  assert (Hlands : forall p, 1 <= p <= totalPages totalCount -> lands p).
  { intros p Hp. split; [exact Hp|].
    pose proof (ceil_div_least totalCount FOSSILS_PER_PAGE ltac:(reflexivity)) as Hceil.
    unfold totalPages in *. unfold FOSSILS_PER_PAGE in *. nia. }
  split; [|split].
  - apply Hlands. unfold Home.previousPage. lia.
  - apply Hlands. unfold Home.nextPage. lia.
  - intros b Hb. apply Hlands.
    destruct (pageButtons_window currentPage _ Hrange) as [first [Heq Hfirst]].
    cbn zeta in Hfirst. rewrite Heq in Hb.
    apply in_map_iff in Hb as [i [<- Hi]]. apply in_seq in Hi. lia.
Qed.

Lemma home_navigation_stays_in_range_witness :
  (1 <= Home.nextPage (totalPages 25) 3 <= totalPages 25 /\
   (Home.nextPage (totalPages 25) 3 - 1) * FOSSILS_PER_PAGE < 25).
Proof.
  destruct (home_navigation_stays_in_range 25 3) as [_ [Hnext _]].
  - lia.
  - vm_compute. split; discriminate.
  - exact Hnext.
Defined.

(** ** The tag list of the list pages *)

Lemma set_add_In (set : list string) (x y : string) :
  In y (JsLib.set_add set x) <-> In y set \/ y = x.
Proof.
  unfold JsLib.set_add. destruct (existsb (String.eqb x) set) eqn:Hex.
  - apply existsb_exists in Hex as [z [Hz Heq]]. apply String.eqb_eq in Heq. subst z.
    split; [tauto | intros [?| ->]; assumption].
  - rewrite in_app_iff. simpl. intuition congruence.
Qed.

Lemma set_add_NoDup (set : list string) (x : string) :
  List.NoDup set -> List.NoDup (JsLib.set_add set x).
Proof.
  intros Hnd. unfold JsLib.set_add.
  destruct (existsb (String.eqb x) set) eqn:Hex; [exact Hnd|].
  apply List.NoDup_app; [exact Hnd | constructor; [intros [] | constructor] |].
  intros z Hz [<-|[]]. apply Bool.not_true_iff_false in Hex. apply Hex.
  apply existsb_exists. exists x. split; [exact Hz | apply String.eqb_refl].
Qed.

Lemma fold_set_add (ts set : list string) :
  (forall y, In y (fold_left JsLib.set_add ts set) <-> In y set \/ In y ts) /\
  (List.NoDup set -> List.NoDup (fold_left JsLib.set_add ts set)).
Proof.
  revert set. induction ts as [|t ts IH]; intros set; simpl.
  - split; [intros y; tauto | auto].
  - destruct (IH (JsLib.set_add set t)) as [Hin Hnd]. split.
    + intros y. rewrite Hin, set_add_In. intuition congruence.
    + intros H. apply Hnd, set_add_NoDup, H.
Qed.

Lemma tagSet_fold (fossils : list Fossil) (set : list string) :
  let result :=
    fold_left
      (fun set fossil =>
         match tags fossil with
         | Some ts => fold_left JsLib.set_add ts set
         | None => set
         end) fossils set in
  (forall y, In y result <-> In y set \/ tag_of fossils y) /\
  (List.NoDup set -> List.NoDup result).
Proof.
  revert set. induction fossils as [|x fossils IH]; intros set; cbn zeta; simpl.
  - split; [|auto]. intros y. split; [tauto|].
    intros [H | (x & ts & [] & _)]. exact H.
  - destruct (tags x) as [ts|] eqn:Htags.
    + destruct (IH (fold_left JsLib.set_add ts set)) as [Hin Hnd].
      destruct (fold_set_add ts set) as [Hin' Hnd']. split.
      * intros y. rewrite Hin, Hin'. split.
        -- intros [[H|H]|(z & zs & Hz & Hzs & Hy)]; [tauto | |].
           ++ right. exists x, ts. simpl. auto.
           ++ right. exists z, zs. simpl. auto.
        -- intros [H|(z & zs & [<-|Hz] & Hzs & Hy)]; [tauto | |].
           ++ rewrite Htags in Hzs. injection Hzs as <-. tauto.
           ++ right. exists z, zs. auto.
      * intros H. apply Hnd, Hnd', H.
    + destruct (IH set) as [Hin Hnd]. split; [|exact Hnd].
      intros y. rewrite Hin. split.
      * intros [H|(z & zs & Hz & Hzs & Hy)]; [tauto|].
        right. exists z, zs. simpl. auto.
      * intros [H|(z & zs & [<-|Hz] & Hzs & Hy)]; [tauto | congruence |].
        right. exists z, zs. auto.
Qed.

Lemma sort_insert_perm (x : string) (l : list string) :
  Permutation (JsLib.sort_insert x l) (x :: l).
Proof.
  induction l as [|y l IH]; simpl; [reflexivity|].
  destruct (JsLib.before x y); [reflexivity|].
  rewrite IH. apply perm_swap.
Qed.

Lemma sort_perm (l : list string) : Permutation (JsLib.sort l) l.
Proof.
  induction l as [|x l IH]; simpl; [reflexivity|].
  rewrite sort_insert_perm. now constructor.
Qed.

Lemma sort_insert_ascending (x : string) (l : list string) :
  ascending l -> ascending (JsLib.sort_insert x l).
Proof.
  unfold ascending. induction l as [|y l IH]; simpl; intros Hl.
  - repeat constructor.
  - destruct (JsLib.before x y) eqn:Hxy.
    + constructor; [exact Hl | constructor; exact Hxy].
    + apply Sorted_inv in Hl as [Hl Hhd]. constructor; [now apply IH|].
      assert (Hyx : JsLib.before y x = true).
      { unfold JsLib.before in *. destruct (String.leb_total x y); congruence. }
      destruct l as [|z l]; simpl.
      * constructor. exact Hyx.
      * destruct (JsLib.before x z); constructor; [exact Hyx|].
        now inversion Hhd.
Qed.

Lemma sort_ascending (l : list string) : ascending (JsLib.sort l).
Proof.
  induction l as [|x l IH]; simpl; [constructor | now apply sort_insert_ascending].
Qed.

(** X13. The tag list offered by the filter form holds exactly the tags
    of the fossils on display, each once, in ascending order. *)
Theorem availableTags_sorted_distinct (fossils : list Fossil) :
  (forall t, In t (Home.availableTags fossils) <-> tag_of fossils t) /\
  List.NoDup (Home.availableTags fossils) /\
  ascending (Home.availableTags fossils).
Proof.
  unfold Home.availableTags, Home.tagSet.
  destruct (tagSet_fold fossils []) as [Hin Hnd]. cbn zeta in Hin, Hnd.
  split; [|split].
  - intros t. split; intros H.
    + apply (Permutation_in _ (sort_perm _)) in H. apply Hin in H as [[]|H]. exact H.
    + apply (Permutation_in _ (Permutation_sym (sort_perm _))). apply Hin. now right.
  - eapply Permutation_NoDup; [symmetry; apply sort_perm|]. apply Hnd. constructor.
  - apply sort_ascending.
Qed.

Lemma availableTags_sorted_distinct_witness :
  In "paleozoic" (Home.availableTags [ammonite; trilobite; trilobite]).
Proof.
  apply (proj1 (availableTags_sorted_distinct [ammonite; trilobite; trilobite])).
  exists trilobite, ["paleozoic"]. simpl. auto.
Defined.

(** ** The tag field *)

Lemma split_pieces_clean (sep : ascii) (s : string) :
  Forall (fun piece => mentions sep piece = false) (JsLib.split sep s).
Proof.
  induction s as [|c s IH]; simpl; [repeat constructor|].
  destruct (Ascii.eqb c sep) eqn:Hc; [constructor; [reflexivity | exact IH]|].
  destruct (JsLib.split sep s) as [|piece pieces].
  - repeat constructor. simpl. now rewrite Hc.
  - inversion IH; subst. constructor; [simpl; now rewrite Hc | assumption].
Qed.

Lemma split_app_sep (sep : ascii) (t rest : string) :
  mentions sep t = false ->
  JsLib.split sep (t +:+ String sep rest) = t :: JsLib.split sep rest.
Proof.
  induction t as [|c t IH]; simpl; intros Ht.
  - now rewrite Ascii.eqb_refl.
  - apply orb_false_iff in Ht as [Hc Ht]. now rewrite Hc, (IH Ht).
Qed.

Lemma split_no_sep (sep : ascii) (t : string) :
  mentions sep t = false -> JsLib.split sep t = [t].
Proof.
  induction t as [|c t IH]; simpl; intros Ht; [reflexivity|].
  apply orb_false_iff in Ht as [Hc Ht]. now rewrite Hc, (IH Ht).
Qed.

Lemma mentions_trimStart (c : ascii) (s : string) :
  mentions c s = false -> mentions c (Js.trimStart s) = false.
Proof.
  induction s as [|d s IH]; simpl; [auto|]. intros H.
  apply orb_false_iff in H as [Hd Hs].
  destruct (Js.is_space d); [now apply IH | simpl; now rewrite Hd, Hs].
Qed.

Lemma mentions_trimEnd (c : ascii) (s : string) :
  mentions c s = false -> mentions c (Js.trimEnd s) = false.
Proof.
  induction s as [|d s IH]; [auto|]. rewrite trimEnd_cons. simpl. intros H.
  apply orb_false_iff in H as [Hd Hs]. specialize (IH Hs).
  destruct (Js.trimEnd s).
  - destruct (Js.is_space d); simpl; [reflexivity | now rewrite Hd].
  - simpl in *. now rewrite Hd, IH.
Qed.

Lemma tagsArray_stored (text : string) (ts : list string) :
  FossilForm.tagsArray text = Some ts -> Forall stored_tag ts.
Proof.
  unfold FossilForm.tagsArray. destruct (Js.truthy text); [|discriminate].
  intros [= <-]. apply List.Forall_forall. intros t Ht.
  apply filter_In in Ht as [Hin Hlen]. apply in_map_iff in Hin as [piece [<- Hpiece]].
  split; [|split].
  - destruct (Js.trim piece); [discriminate Hlen | discriminate].
  - apply trim_idem.
  - apply mentions_trimEnd, mentions_trimStart.
    pose proof (split_pieces_clean "," text) as Hclean.
    rewrite List.Forall_forall in Hclean. now apply Hclean.
Qed.

(** X14. The tags that the add and edit forms store are well formed: an
    empty field stores [null], and any other text stores tags none of which
    is empty, starts or ends with white space, or holds a comma. *)
Theorem tagsArray_well_formed (text : string) :
  (FossilForm.tagsArray text = None <-> text = EmptyString) /\
  (forall ts, FossilForm.tagsArray text = Some ts -> Forall stored_tag ts).
Proof.
  split; [|intros ts; apply tagsArray_stored].
  unfold FossilForm.tagsArray. destruct text; simpl; split; congruence.
Qed.

Lemma tagsArray_well_formed_witness :
  Forall stored_tag ["trilobite"; "paleozoic"].
Proof.
  apply (proj2 (tagsArray_well_formed " trilobite ,, paleozoic,")). reflexivity.
Defined.

Lemma split_join_tags (t : string) (ts : list string) :
  Forall (fun x => mentions "," x = false) (t :: ts) ->
  JsLib.split "," (Js.join ", " (t :: ts)) = t :: map (String " ") ts.
Proof.
  revert t. induction ts as [|t' ts IH]; intros t Hclean.
  - inversion Hclean; subst. now apply split_no_sep.
  - inversion Hclean as [|? ? Ht Hrest]; subst.
    change (Js.join ", " (t :: t' :: ts))
      with (t +:+ String "," (String " " (Js.join ", " (t' :: ts)))).
    rewrite (split_app_sep "," t _ Ht).
    change (JsLib.split "," (String " " (Js.join ", " (t' :: ts))))
      with (match JsLib.split "," (Js.join ", " (t' :: ts)) with
            | piece :: pieces => String " " piece :: pieces
            | [] => [String " " EmptyString]
            end).
    now rewrite (IH t' Hrest).
Qed.

Lemma trim_after_space (x : string) : Js.trim (String " " x) = Js.trim x.
Proof. reflexivity. Qed.

(** X15. Opening the edit form and saving it keeps well-formed tags: the
    text shown for a non-empty list of stored tags is parsed back to the
    same list.  A fossil without tags, or with an empty list, is saved with
    [null]. *)
Theorem tagsArray_tagsText_roundtrip (ts : list string) :
  FossilForm.tagsArray (FossilForm.tagsText None) = None /\
  FossilForm.tagsArray (FossilForm.tagsText (Some [])) = None /\
  (ts <> [] -> Forall stored_tag ts ->
   FossilForm.tagsArray (FossilForm.tagsText (Some ts)) = Some ts).
Proof.
  split; [reflexivity|]. split; [reflexivity|].
  intros Hne Hstored. destruct ts as [|t ts]; [contradiction|].
  unfold FossilForm.tagsArray, FossilForm.tagsText.
  assert (Js.truthy (Js.join ", " (t :: ts)) = true) as ->.
  { inversion Hstored as [|? ? [Ht _] _]; subst.
    destruct t; [contradiction|]. now destruct ts. }
  rewrite split_join_tags.
  2:{ eapply List.Forall_impl; [|exact Hstored]. now intros x (_ & _ & Hx). }
  f_equal. inversion Hstored as [|? ? (Ht & Htrim & _) Hrest]; subst.
  cbn [map List.filter]. rewrite Htrim.
  assert ((0 <? String.length t)%nat = true) as -> by (destruct t; [contradiction | reflexivity]).
  f_equal. clear -Hrest. induction ts as [|x ts IH]; [reflexivity|].
  inversion Hrest as [|? ? (Hx & Htrim & _) Hrest']; subst.
  cbn [map List.filter]. rewrite trim_after_space, Htrim.
  assert ((0 <? String.length x)%nat = true) as -> by (destruct x; [contradiction | reflexivity]).
  f_equal. now apply IH.
Qed.

Lemma tagsArray_tagsText_roundtrip_witness :
  FossilForm.tagsArray (FossilForm.tagsText (Some ["sea lily"; "jurassic"]))
  = Some ["sea lily"; "jurassic"].
Proof.
  apply (tagsArray_tagsText_roundtrip ["sea lily"; "jurassic"]).
  - discriminate.
  - repeat constructor; discriminate.
Defined.

(** ** The cache key *)

Lemma length_append (a b : string) :
  String.length (a +:+ b) = (String.length a + String.length b)%nat.
Proof. induction a as [|c a IH]; simpl; [reflexivity | now rewrite IH]. Qed.

Lemma append_inv_tail (a b c : string) : a +:+ c = b +:+ c -> a = b.
Proof.
  revert b. induction a as [|x a IH]; intros [|y b] H.
  - reflexivity.
  - apply (f_equal String.length) in H. rewrite !length_append in H. simpl in H. lia.
  - apply (f_equal String.length) in H. rewrite !length_append in H. simpl in H. lia.
  - change (String x (a +:+ c) = String y (b +:+ c)) in H.
    injection H as -> H. f_equal. now apply IH.
Qed.

Lemma buildCacheKey_page_inj (page page' : Z) (filters : option SearchFilters) :
  buildCacheKey page filters = buildCacheKey page' filters -> page = page'.
Proof.
  unfold buildCacheKey. destruct filters as [f|]; intros H.
  - apply (inj (String.app "page-")) in H.
    apply append_inv_tail in H. now apply (inj pretty) in H.
  - apply (inj (String.app "page-")) in H. now apply (inj pretty) in H.
Qed.

(** X16. Two pages of the same filters never share a cache key. *)
Theorem buildCacheKey_distinct_pages (page page' : Z) (filters : option SearchFilters) :
  page <> page' -> buildCacheKey page filters <> buildCacheKey page' filters.
Proof. intros Hne Hkey. apply Hne. eapply buildCacheKey_page_inj, Hkey. Qed.

Lemma buildCacheKey_distinct_pages_witness :
  buildCacheKey 1 (Some no_filters) <> buildCacheKey 11 (Some no_filters).
Proof. apply buildCacheKey_distinct_pages. discriminate. Defined.

(** ** More on [fetchAllFossils] *)

(** The state after a call that went to the backend, by its completion. *)
Lemma fetchAllFossils_miss_outcome
    (be : Backend) (page pageSize : Z) (filters : option SearchFilters) (w : World) :
  cache_miss page filters (w_state w) ->
  match fetchAllFossils be page pageSize filters w with
  | (Abrupt e, w') =>
      w_state w' =
        with_loadingAll false (with_errorAll (getErrorMessage e) (w_state w))
  | (Normal res, w') =>
      exists shown,
        w_state w' =
          with_loadingAll false
            (with_allFossilsCache
               (if has_searchQuery filters then allFossilsCache (w_state w)
                else <[buildCacheKey page filters := res]> (allFossilsCache (w_state w)))
               (with_allFossils (fossils res)
                  (with_allFossilsCount shown (with_errorAll "" (w_state w)))))
  end.
Proof.
  intros Hmiss. rewrite (fetchAllFossils_miss be page pageSize filters w Hmiss).
  unfold_async.
  destruct (run_query be (applyFilters select_count (removeSearchQuery filters)));
    cbn [w_state w_calls]; [|reflexivity].
  destruct (run_query be _) as [rd|]; cbn [w_state w_calls]; [|reflexivity].
  destruct (error rd); [reflexivity|].
  destruct (has_searchQuery filters); cbn [w_state w_calls].
  - destruct (run_query be _); cbn; [eexists|]; reflexivity.
  - cbn. eexists. reflexivity.
Qed.

(** What a call does to the cache, whatever path it takes. *)
Lemma fetchAllFossils_cache
    (be : Backend) (page pageSize : Z) (filters : option SearchFilters) (w : World) :
  let '(r, w') := fetchAllFossils be page pageSize filters w in
  allFossilsCache (w_state w') = allFossilsCache (w_state w) \/
  exists res, r = Normal res /\ has_searchQuery filters = false /\
              allFossilsCache (w_state w')
              = <[buildCacheKey page filters := res]> (allFossilsCache (w_state w)).
Proof.
  destruct (if cache_lookup_allowed filters
            then allFossilsCache (w_state w) !! buildCacheKey page filters
            else None) as [cached|] eqn:Hlookup.
  - destruct (cache_lookup_allowed filters) eqn:Hallowed; [|discriminate].
    rewrite (fetchAllFossils_hit be page pageSize filters w cached Hallowed Hlookup).
    now left.
  - pose proof (fetchAllFossils_miss_outcome be page pageSize filters w Hlookup) as Hout.
    destruct (fetchAllFossils be page pageSize filters w) as [[res|e] w'].
    + destruct Hout as [shown ->]. cbn.
      destruct (has_searchQuery filters); [now left | right; eauto].
    + rewrite Hout. now left.
Qed.

(** X17. A fetch never changes what is cached for another key, and in
    particular for another page of the same filters: after any call,
    however it completes, the entry of every other key is as before. *)
Theorem fetchAllFossils_cache_frame
    (be : Backend) (page pageSize : Z) (filters : option SearchFilters) (w : World) :
  let w' := (fetchAllFossils be page pageSize filters w).2 in
  (forall key, key <> buildCacheKey page filters ->
     allFossilsCache (w_state w') !! key = allFossilsCache (w_state w) !! key) /\
  (forall page', page' <> page ->
     allFossilsCache (w_state w') !! buildCacheKey page' filters
     = allFossilsCache (w_state w) !! buildCacheKey page' filters).
Proof.
  cbn zeta.
  assert (Hframe : forall key, key <> buildCacheKey page filters ->
     allFossilsCache (w_state (fetchAllFossils be page pageSize filters w).2) !! key
     = allFossilsCache (w_state w) !! key).
  { intros key Hkey.
    pose proof (fetchAllFossils_cache be page pageSize filters w) as Hcache.
    destruct (fetchAllFossils be page pageSize filters w) as [r w']. cbn.
    destruct Hcache as [-> | (res & _ & _ & ->)]; [reflexivity|].
    now apply lookup_insert_ne. }
  split; [exact Hframe|].
  intros page' Hne. apply Hframe. intros Hkey. apply Hne.
  eapply buildCacheKey_page_inj, Hkey.
Qed.

Lemma fetchAllFossils_cache_frame_witness :
  let w' := (run (fetchAllFossils (table_backend [trilobite; ammonite] None)
                    1 12 (Some no_filters)) initial_state).2 in
  allFossilsCache (w_state w') !! buildCacheKey 2 (Some no_filters) = None.
Proof.
  intros w'.
  destruct (fetchAllFossils_cache_frame (table_backend [trilobite; ammonite] None)
              1 12 (Some no_filters) (mkWorld initial_state [])) as [_ Hpages].
  unfold w', run. rewrite (Hpages 2); [reflexivity | discriminate].
Defined.

(** X18. The result of a search is never cached: a call with a search
    query leaves the page cache exactly as it was, whatever the backend
    answers and however the call completes. *)
Theorem fetchAllFossils_search_never_cached
    (be : Backend) (page pageSize : Z) (filters : option SearchFilters) (w : World) :
  has_searchQuery filters = true ->
  allFossilsCache (w_state (fetchAllFossils be page pageSize filters w).2)
  = allFossilsCache (w_state w).
Proof.
  intros Hsearch.
  pose proof (fetchAllFossils_cache be page pageSize filters w) as Hcache.
  destruct (fetchAllFossils be page pageSize filters w) as [r w']. cbn.
  destruct Hcache as [-> | (res & _ & Hno & _)]; [reflexivity | congruence].
Qed.

Lemma fetchAllFossils_search_never_cached_witness :
  allFossilsCache
    (w_state (fetchAllFossils (table_backend [trilobite; ammonite] None) 1 12
                (query_only "utah") (mkWorld initial_state [])).2)
  = ∅.
Proof.
  apply (fetchAllFossils_search_never_cached (table_backend [trilobite; ammonite] None)
           1 12 (query_only "utah") (mkWorld initial_state [])).
  reflexivity.
Defined.



(** X20. A count query that brings no count (its error is not looked at)
    does not fail the fetch: the page is returned and stored with a total
    of 0, so the home page computes no pages; and for filters that allow
    the cache lookup the pair is cached, so that a repeated call returns
    the total of 0 again without asking the backend. *)
Theorem fetchAllFossils_missing_count_is_zero
    (be be' : Backend) (page pageSize : Z) (filters : option SearchFilters)
    (w : World) (rc rd : Response) :
  cache_miss page filters (w_state w) ->
  has_searchQuery filters = false ->
  run_query be (count_query filters) = Resolved rc ->
  count rc = None ->
  query_succeeds be (data_query page pageSize filters) rd ->
  let result := mkPage (default [] (data rd)) 0 in
  exists w',
    fetchAllFossils be page pageSize filters w = (Normal result, w') /\
    errorAll (w_state w') = "" /\
    allFossilsCount (w_state w') = 0 /\
    totalPages (allFossilsCount (w_state w')) = 0 /\
    (cache_lookup_allowed filters = true ->
     fetchAllFossils be' page pageSize filters w' = (Normal result, w')).
Proof.
  intros Hmiss Hsearch Hcount Hnone Hdata result.
  pose proof (fetchAllFossils_success_plain be page pageSize filters w rc rd
                Hmiss Hsearch Hcount Hdata) as Hrun.
  cbn zeta in Hrun. rewrite Hnone in Hrun. cbn [default] in Hrun.
  eexists. split; [exact Hrun|]. cbn. repeat split.
  intros Hallowed.
  rewrite (fetchAllFossils_hit be' page pageSize filters _ result Hallowed);
    [reflexivity|]. cbn. apply lookup_insert_eq.
Qed.

Lemma fetchAllFossils_missing_count_is_zero_witness :
  exists w',
    fetchAllFossils (count_failing_backend (Js.ErrorInstance "timeout") [trilobite])
      1 12 None (mkWorld initial_state [])
    = (Normal (mkPage [trilobite] 0), w') /\
    allFossilsCount (w_state w') = 0.
Proof.
  destruct (fetchAllFossils_missing_count_is_zero
              (count_failing_backend (Js.ErrorInstance "timeout") [trilobite])
              (count_failing_backend (Js.ErrorInstance "timeout") [trilobite])
              1 12 None (mkWorld initial_state [])
              (mkResponse None None (Some (Js.ErrorInstance "timeout")))
              (mkResponse (Some [trilobite]) None None))
    as [w' [Hrun [_ [Hcount _]]]];
    [reflexivity | reflexivity | reflexivity | reflexivity | split; reflexivity |].
  exists w'. split; assumption.
Defined.

Lemma filterFossils_nil (filters : option SearchFilters) : filterFossils [] filters = [].
Proof.
  unfold filterFossils. destruct filters as [f|]; [|reflexivity].
  destruct (searchQuery f) as [q|]; [|reflexivity].
  destruct (Js.truthy q); [|reflexivity]. simpl.
  now destruct (Js.truthy (Js.trim (Js.toLowerCase q))).
Qed.

Lemma slice_nil {A} (a b : Z) : Js.slice (@nil A) a b = [].
Proof. unfold Js.slice. now rewrite skipn_nil, firstn_nil. Qed.

(** X21. During a search, an unpaginated query that brings no rows (its
    error is not looked at) does not fail the fetch either: the call
    completes normally with an empty page and a count of 0 and leaves no
    error message, whatever rows the paginated query returned. *)
Theorem fetchAllFossils_search_without_rows
    (be : Backend) (page pageSize : Z) (filters : option SearchFilters)
    (w : World) (rc rd ra : Response) :
  has_searchQuery filters = true ->
  run_query be (count_query filters) = Resolved rc ->
  query_succeeds be (data_query page pageSize filters) rd ->
  run_query be (all_data_query filters) = Resolved ra ->
  data ra = None ->
  exists w',
    fetchAllFossils be page pageSize filters w = (Normal (mkPage [] 0), w') /\
    allFossils (w_state w') = [] /\
    allFossilsCount (w_state w') = 0 /\
    errorAll (w_state w') = "".
Proof.
  intros Hsearch Hcount Hdata Hall Hnone.
  pose proof (fetchAllFossils_success_search be page pageSize filters w rc rd ra
                Hsearch Hcount Hdata Hall) as Hrun.
  cbn zeta in Hrun. rewrite Hnone in Hrun. cbn [default] in Hrun.
  rewrite filterFossils_nil, slice_nil in Hrun.
  eexists. split; [exact Hrun|]. cbn. auto.
Qed.

Lemma fetchAllFossils_search_without_rows_witness :
  exists w',
    fetchAllFossils (unranged_failing_backend (Js.ErrorInstance "timeout") [trilobite])
      1 12 (query_only "utah") (mkWorld initial_state [])
    = (Normal (mkPage [] 0), w') /\
    errorAll (w_state w') = "".
Proof.
  destruct (fetchAllFossils_search_without_rows
              (unranged_failing_backend (Js.ErrorInstance "timeout") [trilobite])
              1 12 (query_only "utah") (mkWorld initial_state [])
              (mkResponse None (Some 1) None)
              (mkResponse (Some [trilobite]) None None)
              (mkResponse None None (Some (Js.ErrorInstance "timeout"))))
    as [w' [Hrun [_ [_ Herr]]]];
    [reflexivity | reflexivity | split; reflexivity | reflexivity | reflexivity |].
  exists w'. split; assumption.
Defined.

(** X22. The page size is no part of the cache key: once a page is
    cached, a call for the same page and filters with another page size
    returns the page fetched with the first size, without asking the
    backend. *)
Theorem fetchAllFossils_cache_ignores_pageSize
    (be be' : Backend) (page pageSize pageSize' : Z)
    (filters : option SearchFilters) (w w1 : World) (r : PageResult) :
  cache_lookup_allowed filters = true ->
  fetchAllFossils be page pageSize filters w = (Normal r, w1) ->
  fetchAllFossils be' page pageSize' filters w1 = (Normal r, w1).
Proof.
  intros Hallowed Hrun.
  destruct (fetchAllFossils_normal_cached be page pageSize filters w w1 r Hallowed Hrun)
    as [Hget [Hlist Hcount]].
  rewrite (fetchAllFossils_hit be' page pageSize' filters w1 r Hallowed Hget).
  destruct w1 as [[] calls]. cbn in *. subst. reflexivity.
Qed.

Lemma fetchAllFossils_cache_ignores_pageSize_witness :
  let be := table_backend [trilobite; ammonite] None in
  let w1 := (run (fetchAllFossils be 1 12 None) initial_state).2 in
  fetchAllFossils be 1 1 None w1 = (Normal (mkPage [trilobite; ammonite] 2), w1).
Proof.
  intros be w1.
  apply (fetchAllFossils_cache_ignores_pageSize be be 1 12 1 None
           (mkWorld initial_state [])).
  - reflexivity.
  - vm_compute. reflexivity.
Defined.

(** ** More on [fetchUserFossils] *)

Lemma applyFilters_clauses (q : Query) (filters : option SearchFilters) :
  q_clauses (applyFilters q filters) =
  (q_clauses q ++ q_clauses (applyFilters select_all filters))%list.
Proof.
  destruct filters as [f|]; simpl; [|now rewrite app_nil_r].
  rewrite !when_clauses. cbn [q_clauses select_all app].
  now rewrite <- !app_assoc.
Qed.

Lemma applyFilters_head (q : Query) (filters : option SearchFilters) :
  q_table (applyFilters q filters) = q_table q /\
  q_count_head (applyFilters q filters) = q_count_head q.
Proof.
  destruct filters as [f|]; [|now split]. unfold applyFilters. split.
  - repeat (etransitivity; [apply when_head|]). reflexivity.
  - repeat (etransitivity; [apply when_head|]). reflexivity.
Qed.

Lemma user_query_scoped (user : string) (filters : option SearchFilters) :
  q_table (user_query user filters) = "fossils" /\
  q_count_head (user_query user filters) = false /\
  hd_error (q_clauses (user_query user filters)) = Some (Eq "user_id" user).
Proof.
  unfold user_query. rewrite q_clauses_chain, applyFilters_clauses.
  destruct (applyFilters_head (chain select_all (Eq "user_id" user))
              (removeSearchQuery filters)) as [Htable Hhead].
  split; [|split; [|reflexivity]].
  - cbn [chain q_table]. now rewrite Htable.
  - cbn [chain q_count_head]. now rewrite Hhead.
Qed.

(** The remote calls of one [fetchUserFossils] call. *)
Lemma fetchUserFossils_calls (be : Backend) (filters : option SearchFilters) (w : World) :
  exists new,
    w_calls (fetchUserFossils be filters w).2 = (w_calls w ++ new)%list /\
    (new = [] \/ new = [CallGetUser] \/
     exists user, getUser be = Resolved (Some user) /\
                  new = [CallGetUser; CallQuery (user_query user filters)]).
Proof.
  destruct (answered_by_flag filters (w_state w)) eqn:Hflag.
  - rewrite (fetchUserFossils_noop be filters w Hflag). exists []. cbn.
    split; [now rewrite app_nil_r | now left].
  - destruct (getUser be) as [[user|]|e] eqn:Huser.
    + exists [CallGetUser; CallQuery (user_query user filters)].
      split; [|right; right; eauto].
      destruct (run_query be (user_query user filters)) as [r|e] eqn:Hq.
      * destruct (error r) as [e|] eqn:Herr.
        -- rewrite (fetchUserFossils_query_failure be filters w user e); auto.
           right. eauto.
        -- rewrite (fetchUserFossils_success be filters w user r); auto. now split.
      * rewrite (fetchUserFossils_query_failure be filters w user e); auto. now left.
    + exists [CallGetUser]. rewrite (fetchUserFossils_no_user be filters w); auto.
    + exists [CallGetUser]. rewrite (fetchUserFossils_auth_rejected be filters w e); auto.
Qed.

(** X23. [fetchUserFossils] only ever reads the fossils of the signed-in
    user: every query that a call adds to the log is a data query on the
    fossils table whose first predicate is [user_id = ] the id that the auth
    call returned, and a call makes at most one such query. *)
Theorem fetchUserFossils_queries_own_rows
    (be : Backend) (filters : option SearchFilters) (w : World) :
  exists new,
    w_calls (fetchUserFossils be filters w).2 = (w_calls w ++ new)%list /\
    (length (List.filter (fun c => match c with CallQuery _ => true | _ => false end) new)
     <= 1)%nat /\
    forall q, In (CallQuery q) new ->
      exists user,
        getUser be = Resolved (Some user) /\
        q_table q = "fossils" /\ q_count_head q = false /\
        hd_error (q_clauses q) = Some (Eq "user_id" user).
Proof.
  destruct (fetchUserFossils_calls be filters w) as [new [Hcalls Hnew]].
  exists new. split; [exact Hcalls|].
  destruct Hnew as [-> | [-> | (user & Huser & ->)]].
  - split; [cbn; lia | intros q []].
  - split; [cbn; lia | intros q [H|[]]; discriminate].
  - split; [cbn; lia|]. intros q [H|[H|[]]]; [discriminate|].
    injection H as <-. exists user. split; [exact Huser | apply user_query_scoped].
Qed.

Lemma fetchUserFossils_queries_own_rows_witness :
  exists user,
    getUser (table_backend [trilobite] (Some "u1")) = Resolved (Some user) /\
    q_table (user_query "u1" None) = "fossils" /\
    q_count_head (user_query "u1" None) = false /\
    hd_error (q_clauses (user_query "u1" None)) = Some (Eq "user_id" user).
Proof.
  destruct (fetchUserFossils_queries_own_rows (table_backend [trilobite] (Some "u1"))
              None (mkWorld initial_state [])) as [new [Hcalls [_ Hown]]].
  apply Hown. cbn in Hcalls. rewrite <- Hcalls. right. left. reflexivity.
Defined.

(** X24. [clearCache] keeps the stored filters of the personal list but
    resets its loaded flag, and that is enough: the [fetchUserFossils] call
    that follows it asks the backend, starting with the auth call, whatever
    its filters, the stored ones included. *)
Theorem clearCache_then_fetchUserFossils
    (be : Backend) (filters : option SearchFilters) (w : World) :
  let w1 := (clearCache w).2 in
  userFossilsFilters (w_state w1) = userFossilsFilters (w_state w) /\
  exists rest,
    w_calls (fetchUserFossils be filters w1).2
    = (w_calls w ++ CallGetUser :: rest)%list.
Proof.
  cbn zeta. rewrite clearCache_run. cbn [snd]. split; [reflexivity|].
  set (w1 := mkWorld _ _).
  assert (Hflag : answered_by_flag filters (w_state w1) = false) by reflexivity.
  destruct (getUser be) as [[user|]|e] eqn:Huser.
  - destruct (run_query be (user_query user filters)) as [r|e] eqn:Hq.
    + destruct (error r) as [e|] eqn:Herr.
      * rewrite (fetchUserFossils_query_failure be filters w1 user e); eauto.
        right. eauto.
      * rewrite (fetchUserFossils_success be filters w1 user r); eauto. now split.
    + rewrite (fetchUserFossils_query_failure be filters w1 user e); eauto. now left.
  - rewrite (fetchUserFossils_no_user be filters w1); eauto.
  - rewrite (fetchUserFossils_auth_rejected be filters w1 e); eauto.
Qed.

(** ** The pages of a search *)

Lemma slice_page {A} (l : list A) (p s : Z) :
  1 <= p -> 0 <= s ->
  Js.slice l ((p - 1) * s) ((p - 1) * s + s)
  = firstn (Z.to_nat s) (skipn (Z.to_nat ((p - 1) * s)) l).
Proof.
  intros Hp Hs. unfold Js.slice, Js.rel_index.
  assert (0 <= (p - 1) * s) as Hoff by nia.
  destruct (Z.ltb_spec ((p - 1) * s) 0); [lia|].
  destruct (Z.ltb_spec ((p - 1) * s + s) 0); [lia|].
  destruct (Z_le_gt_dec (Z.of_nat (length l)) ((p - 1) * s)) as [Hout|Hin].
  - rewrite !skipn_all2 by lia. now rewrite !firstn_nil.
  - rewrite (Z.min_l ((p - 1) * s)) by lia.
    destruct (Z_le_gt_dec ((p - 1) * s + s) (Z.of_nat (length l))) as [Hfull|Hpart].
    + rewrite (Z.min_l ((p - 1) * s + s)) by lia. f_equal. lia.
    + rewrite (Z.min_r ((p - 1) * s + s)) by lia.
      rewrite !firstn_all2; [reflexivity| |]; rewrite length_skipn; lia.
Qed.

Lemma chunks_concat {A} (s n : nat) (l : list A) :
  (length l <= n * s)%nat ->
  concat (map (fun i => firstn s (skipn (i * s) l)) (seq 0 n)) = l.
Proof.
  revert l. induction n as [|n IH]; intros l Hlen.
  - destruct l; [reflexivity | simpl in Hlen; lia].
  - rewrite <- cons_seq, <- seq_shift. cbn [map concat]. rewrite List.map_map.
    change (0 * s)%nat with 0%nat.
    transitivity (firstn s l ++ skipn s l)%list; [|apply firstn_skipn].
    f_equal. rewrite <- (IH (skipn s l)) at 1 by (rewrite length_skipn; lia).
    f_equal. apply map_ext. intros i. rewrite skipn_skipn. do 2 f_equal. lia.
Qed.

(** X25. The pages of a search cut the refined list without loss or
    overlap: for a positive page size, every page slice holds at most
    [pageSize] fossils, and the slices of the pages 1 to
    [Math.ceil(count / pageSize)], one after the other, are the refined
    list. *)
Theorem search_pages_cover (refined : list Fossil) (pageSize : Z) :
  0 < pageSize ->
  let pages := Js.ceil_div (Z.of_nat (length refined)) pageSize in
  let slice_of page :=
    Js.slice refined ((page - 1) * pageSize) ((page - 1) * pageSize + pageSize) in
  (forall page, 1 <= page -> Z.of_nat (length (slice_of page)) <= pageSize) /\
  concat (map (fun i => slice_of (Z.of_nat i)) (seq 1 (Z.to_nat pages))) = refined.
Proof.
  intros Hsize pages slice_of. split.
  - intros page Hpage. unfold slice_of. rewrite slice_page by lia.
    rewrite length_firstn. lia.
  - pose proof (ceil_div_least (Z.of_nat (length refined)) pageSize Hsize) as Hceil.
    fold pages in Hceil.
    transitivity
      (concat (map (fun i => firstn (Z.to_nat pageSize)
                               (skipn (i * Z.to_nat pageSize) refined))
                   (seq 0 (Z.to_nat pages)))); [|apply chunks_concat; nia].
    rewrite <- seq_shift, List.map_map. f_equal. apply map_ext. intros i.
    unfold slice_of. rewrite slice_page by lia. do 2 f_equal. lia.
Qed.

Lemma search_pages_cover_witness :
  concat (map (fun i => Js.slice [trilobite; ammonite; trilobite]
                          ((Z.of_nat i - 1) * 2) ((Z.of_nat i - 1) * 2 + 2))
              (seq 1 (Z.to_nat (Js.ceil_div (Z.of_nat 3) 2))))
  = [trilobite; ammonite; trilobite].
Proof.
  apply (proj2 (search_pages_cover [trilobite; ammonite; trilobite] 2 ltac:(lia))).
Defined.

(** ** The add and edit forms *)

(** Unfolds a submit down to a function on the world of the form. *)
Ltac unfold_task :=
  unfold Modal.add_handleSubmit, Modal.add_try, Modal.edit_handleSubmit, Modal.edit_try,
    Modal.remove_old_image, Modal.try_catch_finally, Modal.try_catch,
    Modal.call_onSuccess, Modal.resetForm, Modal.setError, Modal.setLoading,
    Modal.await, Modal.emit, Modal.throw, Modal.get_form, Modal.set_form,
    mbind, mret, Modal.Task_bind, Modal.Task_ret;
  cbv zeta.

(** X26. The submit of the add form never rejects and always leaves the
    loading flag reset, and what it does is one of five things: nothing
    outside the form, when no image is chosen; the upload alone, when the
    upload fails; the upload and the insert, when the insert rejects; the
    upload, the insert and the removal of the uploaded image, when the
    insert resolves with an error; or the upload, the insert of a row that
    carries the id of the user and the public address of the uploaded
    image, and the callbacks, when all went well.  Only in the last case
    are the callbacks called, and the form is then emptied: the five text
    fields, the chosen file and its preview are all cleared and no error is
    shown.  In the four others every field of the form is kept and the
    error shown is "Please select an image" without an image, the message
    of the failure when it is an [Error], and the text "An error occurred
    while submitting the fossil" for any other failure. *)
Theorem add_handleSubmit_trace
    (sv : Modal.Services) (user : string) (onSuccess : bool) (w : Modal.World) :
  exists w' new,
    Modal.add_handleSubmit sv user onSuccess w = (Normal tt, w') /\
    Modal.loading (Modal.form w') = false /\
    Modal.events w' = (Modal.events w ++ new)%list /\
    let f := Modal.form w in
    let kept_with message :=
      Modal.form w'
      = Modal.mkForm (Modal.species f) (Modal.description f) (Modal.location f)
          (Modal.discoveryDate f) (Modal.tags f) (Modal.imageFile f)
          (Modal.imagePreview f) false message in
    match Modal.imageFile f with
    | None =>
        new = [] /\ kept_with "Please select an image"
    | Some name =>
        let path := Modal.fileName user (Modal.now sv) name in
        let row :=
          Modal.mkInsert user (Modal.or_null (Modal.species f)) (Modal.description f)
            (Modal.or_null (Modal.location f)) (Modal.or_null (Modal.discoveryDate f))
            (FossilForm.tagsArray (Modal.tags f)) (Modal.getPublicUrl sv path) in
        let failed e :=
          Modal.error (Modal.form w')
          = Modal.message_or "An error occurred while submitting the fossil" e /\
          kept_with match e with
                    | Js.ErrorInstance m => m
                    | Js.OtherValue _ => "An error occurred while submitting the fossil"
                    end in
        match Modal.upload sv path name with
        | Rejected e | Resolved (Some e) =>
            new = [Modal.Upload path name] /\ failed e
        | Resolved None =>
            match Modal.insert sv row with
            | Rejected e =>
                new = [Modal.Upload path name; Modal.Insert row] /\ failed e
            | Resolved (Some e) =>
                new = [Modal.Upload path name; Modal.Insert row; Modal.Remove [path]] /\
                failed (match Modal.remove sv [path] with
                        | Rejected e' => e'
                        | Resolved _ => e
                        end)
            | Resolved None =>
                new = ([Modal.Upload path name; Modal.Insert row; Modal.OnClose] ++
                       if onSuccess then [Modal.OnSuccess] else [])%list /\
                Modal.error (Modal.form w') = "" /\
                Modal.imageFile (Modal.form w') = None /\
                Modal.tags (Modal.form w') = "" /\
                Modal.form w' = Modal.mkForm "" "" "" "" "" None None false ""
            end
        end
    end.
Proof.
  unfold_task. cbn [Modal.form Modal.events Modal.imageFile].
  destruct (Modal.imageFile (Modal.form w)) as [name|].
  - cbn zeta.
    destruct (Modal.upload sv _ name) as [[e|]|e]; cbn [Modal.form Modal.events].
    + do 2 eexists. repeat split.
    + destruct (Modal.insert sv _) as [[e|]|e]; cbn [Modal.form Modal.events].
      * destruct (Modal.remove sv _) as [r|e']; cbn [Modal.form Modal.events];
          do 2 eexists; (split; [reflexivity|]); (split; [reflexivity|]);
          (split; [rewrite <- !app_assoc; reflexivity|]); repeat split.
      * destruct onSuccess; cbn [Modal.form Modal.events];
          do 2 eexists; (split; [reflexivity|]); (split; [reflexivity|]);
          (split; [rewrite <- !app_assoc; reflexivity|]); repeat split.
      * do 2 eexists. split; [reflexivity|]. split; [reflexivity|].
        split; [rewrite <- !app_assoc; reflexivity|]. repeat split.
    + do 2 eexists. repeat split.
  - eexists. exists []. cbn. rewrite app_nil_r. repeat split.
Qed.

Lemma split_cons (sep c : ascii) (s : string) :
  exists piece pieces,
    JsLib.split sep s = piece :: pieces /\
    JsLib.split sep (String c s) =
      if Ascii.eqb c sep then EmptyString :: piece :: pieces
      else String c piece :: pieces.
Proof.
  assert (Hne : forall t, JsLib.split sep t <> []).
  { induction t as [|d t IH]; simpl; [discriminate|].
    destruct (Ascii.eqb d sep); [discriminate|].
    destruct (JsLib.split sep t); discriminate. }
  destruct (JsLib.split sep s) as [|piece pieces] eqn:Hs; [now destruct (Hne s)|].
  exists piece, pieces. split; [reflexivity|]. simpl. rewrite Hs.
  now destruct (Ascii.eqb c sep).
Qed.

Lemma split_app (sep : ascii) (a b : string) :
  JsLib.split sep (a +:+ String sep b) = (JsLib.split sep a ++ JsLib.split sep b)%list.
Proof.
  induction a as [|c a IH].
  - simpl. now rewrite Ascii.eqb_refl.
  - change (String c a +:+ String sep b) with (String c (a +:+ String sep b)).
    destruct (split_cons sep c a) as (p & ps & Ha & ->).
    destruct (split_cons sep c (a +:+ String sep b)) as (p' & ps' & Hab & ->).
    rewrite IH, Ha in Hab. injection Hab as <- <-.
    now destruct (Ascii.eqb c sep).
Qed.

Lemma join_split (sep : ascii) (s : string) :
  Js.join (String sep EmptyString) (JsLib.split sep s) = s.
Proof.
  induction s as [|c s IH]; [reflexivity|].
  destruct (split_cons sep c s) as (p & ps & Hs & ->). rewrite Hs in IH.
  destruct (Ascii.eqb c sep) eqn:Hc.
  - apply Ascii.eqb_eq in Hc. subst c.
    change (Js.join (String sep EmptyString) (EmptyString :: p :: ps))
      with (String sep (Js.join (String sep EmptyString) (p :: ps))).
    now rewrite IH.
  - rewrite <- IH. now destruct ps.
Qed.

Lemma findIndex_app (x : string) (before after : list string) :
  ~ In x before ->
  Modal.findIndex x (before ++ x :: after) = Some (length before).
Proof.
  induction before as [|p before IH]; simpl; intros Hnot.
  - now rewrite String.eqb_refl.
  - destruct (String.eqb_spec p x) as [->|_]; [tauto|].
    rewrite IH by tauto. reflexivity.
Qed.

Lemma last_in {A} (l : list A) (d : A) : l <> [] -> In (List.last l d) l.
Proof.
  induction l as [|x l IH]; [contradiction|]. intros _.
  destruct l as [|y l]; [now left|]. right. apply IH. discriminate.
Qed.

(** X27. The edit form finds the stored image again: for a public
    address of the shape [base/fossil-images/path], where no part of [base]
    between slashes is [fossil-images], the path that the edit removes from
    the bucket is [path], slashes included; and the path under which the
    forms upload an image starts with the id of the user and ends with an
    extension that holds no dot. *)
Theorem oldImagePath_roundtrip (base path user name : string) (now : Z) :
  (~ In "fossil-images" (JsLib.split "/" base) ->
   Modal.oldImagePath (base +:+ "/fossil-images/" +:+ path) = Some path) /\
  (exists rest, Modal.fileName user now name = user +:+ "/" +:+ rest) /\
  mentions "." (Modal.fileExt name) = false.
Proof.
  split; [|split].
  - intros Hbase. unfold Modal.oldImagePath.
    change (base +:+ "/fossil-images/" +:+ path)
      with (base +:+ String "/" ("fossil-images" +:+ String "/" path)).
    rewrite split_app, (split_app "/" "fossil-images" path).
    change (JsLib.split "/" "fossil-images") with ["fossil-images"].
    cbn [app]. rewrite (findIndex_app _ _ _ Hbase).
    destruct (split_cons "/" "x" path) as (p & ps & Hpath & _).
    rewrite length_app. cbn [length]. rewrite Hpath. cbn [length].
    destruct (Nat.ltb_spec (length (JsLib.split "/" base))
                (length (JsLib.split "/" base) + S (S (length ps)) - 1)); [|lia].
    f_equal. rewrite skipn_app, skipn_all2 by lia.
    replace (length (JsLib.split "/" base) + 1 - length (JsLib.split "/" base))%nat
      with 1%nat by lia.
    cbn [app skipn]. rewrite <- Hpath. apply join_split.
  - eexists. reflexivity.
  - unfold Modal.fileExt.
    pose proof (split_pieces_clean "." name) as Hclean.
    destruct (split_cons "." "x" name) as (p & ps & Hname & _). rewrite Hname in *.
    rewrite List.Forall_forall in Hclean. apply Hclean.
    apply (last_in (p :: ps)). discriminate.
Qed.

Lemma oldImagePath_roundtrip_witness :
  Modal.oldImagePath
    ("https://db.example/storage/v1/object/public" +:+ "/fossil-images/" +:+ "u1/17.png")
  = Some "u1/17.png".
Proof.
  apply (proj1 (oldImagePath_roundtrip "https://db.example/storage/v1/object/public"
                  "u1/17.png" "u1" "shell.png" 17)).
  vm_compute. intuition discriminate.
Defined.

(** Reduces the projections of the world and of the form. *)
Ltac modal_simpl :=
  cbn [Modal.form Modal.events Modal.imageFile Modal.species Modal.description
       Modal.location Modal.discoveryDate Modal.tags Modal.imagePreview
       Modal.loading Modal.error].

(** Closes one branch of a submit: the completion, the loading flag, the
    new events, then what is left. *)
Ltac submit_branch tac :=
  modal_simpl;
  do 2 eexists;
  (split; [reflexivity|]); (split; [reflexivity|]);
  (split; [rewrite <- ?app_assoc; reflexivity|]);
  tac.

(** X28. The submit of the edit form never rejects and leaves the loading
    flag reset; it sends an update only for a fossil of the user, and then
    with the two predicates [id = ] the fossil and [user_id = ] the user.
    For a fossil of another user it calls neither callback and, without a
    new image, does nothing outside the form and leaves the permission
    message; with a new image the upload is made all the same, before the
    ownership test. *)
Theorem edit_update_only_by_owner
    (sv : Modal.Services) (user : string) (fossil : Fossil) (onSuccess : bool)
    (w : Modal.World) :
  exists w' new,
    Modal.edit_handleSubmit sv user fossil onSuccess w = (Normal tt, w') /\
    Modal.loading (Modal.form w') = false /\
    Modal.events w' = (Modal.events w ++ new)%list /\
    (forall row predicates,
        In (Modal.Update row predicates) new ->
        fossil_owner fossil = user /\
        predicates = [Eq "id" (fossil_id fossil); Eq "user_id" user]) /\
    (fossil_owner fossil <> user ->
     ~ In Modal.OnClose new /\ ~ In Modal.OnSuccess new /\
     match Modal.imageFile (Modal.form w) with
     | None =>
         new = [] /\
         Modal.error (Modal.form w') = "You do not have permission to edit this fossil"
     | Some name =>
         In (Modal.Upload (Modal.fileName user (Modal.now sv) name) name) new
     end).
Proof.
  unfold_task. modal_simpl.
  destruct (String.eqb_spec (fossil_owner fossil) user) as [Howner|Hother];
    cbn [negb].
  - (* the fossil of the user *)
    assert (Hupdate : forall (new : list Modal.Event) row predicates,
      Forall (fun ev => match ev with
                        | Modal.Update _ p =>
                            p = [Eq "id" (fossil_id fossil); Eq "user_id" user]
                        | _ => True
                        end) new ->
      In (Modal.Update row predicates) new ->
      fossil_owner fossil = user /\
      predicates = [Eq "id" (fossil_id fossil); Eq "user_id" user]).
    { intros new row predicates Hall Hin. rewrite List.Forall_forall in Hall.
      split; [exact Howner | exact (Hall _ Hin)]. }
    destruct (Modal.imageFile (Modal.form w)) as [name|].
    + destruct (Modal.oldImagePath (fossil_image_url fossil)) as [old|];
        [destruct (Modal.remove sv [old]) as [r|e0]|];
        modal_simpl;
        (destruct (Modal.upload sv _ name) as [[e|]|e];
         [submit_branch ltac:(split; [intros; eapply Hupdate; [|eassumption];
                                      repeat constructor | tauto])
         | destruct (Modal.update sv _ _) as [[e|]|e];
           [ | destruct onSuccess | ];
           submit_branch ltac:(split; [intros; eapply Hupdate; [|eassumption];
                                       repeat constructor | tauto])
         | submit_branch ltac:(split; [intros; eapply Hupdate; [|eassumption];
                                       repeat constructor | tauto]) ]).
    + destruct (Modal.update sv _ _) as [[e|]|e]; [ | destruct onSuccess | ];
        submit_branch ltac:(split; [intros; eapply Hupdate; [|eassumption];
                                    repeat constructor | tauto]).
  - (* the fossil of another user *)
    destruct (Modal.imageFile (Modal.form w)) as [name|].
    + destruct (Modal.oldImagePath (fossil_image_url fossil)) as [old|];
        [destruct (Modal.remove sv [old]) as [r|e0]|];
        modal_simpl;
        destruct (Modal.upload sv _ name) as [[e|]|e];
        submit_branch ltac:(split; [intros row predicates Hin; exfalso;
                                    simpl in Hin; intuition discriminate
                                   | intros _; simpl; intuition discriminate]).
    + modal_simpl. eexists. exists [].
      split; [reflexivity|]. split; [reflexivity|].
      split; [now rewrite app_nil_r|].
      split; [intros row predicates [] | intros _; simpl; intuition].
Qed.

Lemma edit_update_only_by_owner_witness :
  exists w' new,
    Modal.edit_handleSubmit fine_services "u2" trilobite true
      (Modal.mkWorld (Modal.mkForm "Trilobite" "nice" "" "" "" None None false "") [])
    = (Normal tt, w') /\
    Modal.events w' = ([] ++ new)%list /\
    new = [] /\
    Modal.error (Modal.form w') = "You do not have permission to edit this fossil".
Proof.
  destruct (edit_update_only_by_owner fine_services "u2" trilobite true
              (Modal.mkWorld (Modal.mkForm "Trilobite" "nice" "" "" "" None None false "")
                             []))
    as (w' & new & Hrun & _ & Hevents & _ & Hother).
  exists w', new. split; [exact Hrun|]. split; [exact Hevents|].
  apply Hother. discriminate.
Defined.

Lemma tagsArray_of_tagsText (ts : list string) :
  ts <> [] -> Forall stored_tag ts ->
  FossilForm.tagsArray (FossilForm.tagsText (Some ts)) = Some ts.
Proof.
  intros Hne Hstored. destruct ts as [|t ts]; [contradiction|].
  unfold FossilForm.tagsArray, FossilForm.tagsText.
  assert (Js.truthy (Js.join ", " (t :: ts)) = true) as ->.
  { inversion Hstored as [|? ? [Ht _] _]; subst.
    destruct t; [contradiction|]. now destruct ts. }
  rewrite split_join_tags.
  2:{ eapply List.Forall_impl; [|exact Hstored]. now intros x (_ & _ & Hx). }
  f_equal. inversion Hstored as [|? ? (Ht & Htrim & _) Hrest]; subst.
  cbn [map List.filter]. rewrite Htrim.
  assert ((0 <? String.length t)%nat = true) as ->
    by (destruct t; [contradiction | reflexivity]).
  f_equal. clear -Hrest. induction ts as [|x ts IH]; [reflexivity|].
  inversion Hrest as [|? ? (Hx & Htrim & _) Hrest']; subst.
  cbn [map List.filter]. rewrite trim_after_space, Htrim.
  assert ((0 <? String.length x)%nat = true) as ->
    by (destruct x; [contradiction | reflexivity]).
  f_equal. now apply IH.
Qed.

Lemma or_null_default (o : option string) :
  o <> Some EmptyString -> Modal.or_null (default "" o) = o.
Proof. destruct o as [[|c s]|]; [contradiction | reflexivity | reflexivity]. Qed.

(** X29. Opening the edit form on a fossil of the user and saving it as
    it is writes the fossil back: for a fossil whose optional texts are
    absent rather than empty, whose date is a plain date and whose tags are
    stored tags, the submit makes no call on the bucket and its one call on
    the table is the update of that fossil with its own species,
    description, location, date, tags and image address; the callbacks
    follow when the update succeeds. *)
Theorem edit_unchanged_writes_back
    (sv : Modal.Services) (fossil : Fossil) (onSuccess : bool)
    (f : Modal.FormState) (events : list Modal.Event) :
  plain_fossil fossil ->
  let user := user_id fossil in
  let row :=
    Modal.mkUpdate (species fossil) (description fossil) (location fossil)
                   (discovery_date fossil) (tags fossil) (image_url fossil) in
  let predicates := [Eq "id" (id fossil); Eq "user_id" user] in
  let w' :=
    (Modal.edit_handleSubmit sv user fossil onSuccess
       (Modal.mkWorld (edit_populate fossil f) events)).2 in
  Modal.events w' =
    (events ++ Modal.Update row predicates ::
       match Modal.update sv row predicates with
       | Resolved None =>
           Modal.OnClose :: if onSuccess then [Modal.OnSuccess] else []
       | _ => []
       end)%list.
Proof.
  intros (Hspecies & Hlocation & Hdate & Htags). cbn zeta.
  unfold_task. modal_simpl. unfold edit_populate. modal_simpl.
  unfold fossil_owner, fossil_image_url, fossil_id.
  rewrite String.eqb_refl. cbn [negb].
  rewrite (or_null_default _ Hspecies), (or_null_default _ Hlocation).
  assert (Hd : Modal.or_null
                 match discovery_date fossil with
                 | Some d => if Js.truthy d then List.hd "" (JsLib.split "T" d) else ""
                 | None => ""
                 end = discovery_date fossil).
  { destruct (discovery_date fossil) as [d|]; [|reflexivity].
    destruct Hdate as [Hd Hplain]. rewrite (split_no_sep "T" d Hplain).
    destruct d; [contradiction | reflexivity]. }
  rewrite Hd.
  assert (Ht : FossilForm.tagsArray (FossilForm.tagsText (tags fossil)) = tags fossil).
  { destruct (tags fossil) as [ts|]; [|reflexivity].
    destruct Htags as [Hne Hstored]. now apply tagsArray_of_tagsText. }
  rewrite Ht.
  destruct (Modal.update sv _ _) as [[e|]|e]; [ | destruct onSuccess | ];
    modal_simpl; cbn [snd Modal.events]; rewrite <- ?app_assoc; reflexivity.
Qed.

Lemma edit_unchanged_writes_back_witness :
  Modal.events
    (Modal.edit_handleSubmit fine_services "u1" trilobite true
       (Modal.mkWorld
          (edit_populate trilobite (Modal.mkForm "" "" "" "" "" None None false ""))
          [])).2
  = [Modal.Update
       (Modal.mkUpdate (Some "Trilobite") "nice" (Some "Utah") None
                       (Some ["paleozoic"]) "t.png")
       [Eq "id" "f1"; Eq "user_id" "u1"];
     Modal.OnClose; Modal.OnSuccess].
Proof.
  apply (edit_unchanged_writes_back fine_services trilobite true
           (Modal.mkForm "" "" "" "" "" None None false "") []).
  repeat split; try discriminate. repeat constructor; discriminate.
Defined.
